(** * StatmusePicker: the recommendation engine of [server/analyzer.ts]

    A shallow embedding of [analyzeProjection] and [batchAnalyze], and the
    properties of the engine stated in the specification.

    JavaScript numbers are IEEE 754 binary64 values.  They are modelled by
    the Standard Library's [spec_float] at precision 53 and maximal
    exponent 1024, whose operations are plain functions on [Z] and so
    evaluate inside the logic, infinities, signed zeros and NaN included. *)

From Stdlib Require Import ZArith Lia List String Ascii Bool.
From Stdlib Require Import Floats.SpecFloat.
Import ListNotations.

Set Implicit Arguments.

Open Scope Z_scope.

(** ** JavaScript numbers and the built-ins the analyzer calls *)

Module JS.

Definition number : Type := spec_float.

Definition prec : Z := 53.
Definition emax : Z := 1024.

(** An integer literal of the source, as the binary64 value it denotes. *)
Definition ofZ (z : Z) : number := binary_normalize prec emax z 0 false.

(** An array length or a count, converted to a number. *)
Definition ofNat (n : nat) : number := ofZ (Z.of_nat n).

Definition NaN : number := S754_nan.
Definition Infinity : number := S754_infinity false.

(** The literal [0.8]: the binary64 value nearest to 4/5,
    0x3FE999999999999A. *)
Definition lit_0_8 : number := S754_finite false 7205759403792794 (-53).

Definition add : number -> number -> number := SFadd prec emax.
Definition sub : number -> number -> number := SFsub prec emax.
Definition mul : number -> number -> number := SFmul prec emax.
Definition div : number -> number -> number := SFdiv prec emax.
Definition sqrt : number -> number := SFsqrt prec emax.

(** [x < y], [x > y], [x >= y] and [x === y] on numbers; every one of them
    is false as soon as an operand is NaN. *)
Definition ltb (x y : number) : bool := SFltb x y.
Definition gtb (x y : number) : bool := SFltb y x.
Definition geb (x y : number) : bool := SFleb y x.
Definition strict_eqb (x y : number) : bool := SFeqb x y.

Definition isNaN (x : number) : bool :=
  match x with S754_nan => true | _ => false end.

Definition isInfinite (x : number) : bool :=
  match x with S754_infinity _ => true | _ => false end.

Definition Math_abs : number -> number := SFabs.

(** [Math.max] and [Math.min]: NaN is contagious and [+0] is larger
    than [-0]. *)
Definition Math_max (x y : number) : number :=
  match x, y with
  | S754_nan, _ | _, S754_nan => S754_nan
  | S754_zero sx, S754_zero sy => S754_zero (sx && sy)
  | _, _ => if SFltb x y then y else x
  end.

Definition Math_min (x y : number) : number :=
  match x, y with
  | S754_nan, _ | _, S754_nan => S754_nan
  | S754_zero sx, S754_zero sy => S754_zero (sx || sy)
  | _, _ => if SFltb y x then y else x
  end.

(** [Math.round]: the nearest integer, a tie going towards +Infinity;
    an integral value, an infinity, a zero and NaN are returned as they
    are, and a result that rounds to zero keeps the sign of the
    argument.  A finite [m * 2^e] with [e < 0] rounds to
    [floor ((2 m + 2^-e) / 2^(1-e))]. *)
Definition Math_round (x : number) : number :=
  match x with
  | S754_finite s m e =>
      if 0 <=? e then x
      else
        let z := cond_Zopp s (Zpos m) in
        let n := (2 * z + 2 ^ (- e)) / 2 ^ (1 - e) in
        if n =? 0 then S754_zero s else ofZ n
  | _ => x
  end.

(** [Math.pow(x, 2)], the square. *)
Definition Math_pow2 (x : number) : number := mul x x.

(** [String.prototype.trim] on the six ASCII white-space characters. *)
Definition isWhiteSpace (c : ascii) : bool :=
  let n := nat_of_ascii c in
  (Nat.eqb n 32 || (Nat.leb 9 n && Nat.leb n 13))%bool.

Fixpoint trimStart (s : string) : string :=
  match s with
  | String c s' => if isWhiteSpace c then trimStart s' else s
  | EmptyString => EmptyString
  end.

Fixpoint trimEnd (s : string) : string :=
  match s with
  | String c s' =>
      match trimEnd s' with
      | EmptyString => if isWhiteSpace c then EmptyString else String c EmptyString
      | t => String c t
      end
  | EmptyString => EmptyString
  end.

Definition trim (s : string) : string := trimEnd (trimStart s).

End JS.

Import JS (number, ofZ, ofNat, Math_abs, Math_max, Math_min, Math_round).

Declare Scope js_scope.
Delimit Scope js_scope with js.
Bind Scope js_scope with number.
Infix "+" := JS.add : js_scope.
Infix "-" := JS.sub : js_scope.
Infix "*" := JS.mul : js_scope.
Infix "/" := JS.div : js_scope.
Infix "<?" := JS.ltb : js_scope.
Infix ">?" := JS.gtb : js_scope.
Infix ">=?" := JS.geb : js_scope.
Infix "=?" := JS.strict_eqb : js_scope.
Notation "# z" := (ofZ z) (at level 5, z at level 1, format "# z") : js_scope.

(** ** Data model *)

Inductive Recommendation : Set := over | under | skip.
Inductive Consistency : Set := high | medium | low.
Inductive Trend : Set := increasing | stable | decreasing.

Definition Recommendation_eqb (a b : Recommendation) : bool :=
  match a, b with
  | over, over | under, under | skip, skip => true
  | _, _ => false
  end.

Definition Consistency_eqb (a b : Consistency) : bool :=
  match a, b with
  | high, high | medium, medium | low, low => true
  | _, _ => false
  end.

Definition Trend_eqb (a b : Trend) : bool :=
  match a, b with
  | increasing, increasing | stable, stable | decreasing, decreasing => true
  | _, _ => false
  end.

(** The literal a [Recommendation] is at run time, as interpolated into the
    reasoning. *)
Definition Recommendation_text (r : Recommendation) : string :=
  match r with over => "over" | under => "under" | skip => "skip" end.

(** [PlayerStatsSummary] of [server/statmuse.ts]. *)
Module Stats.
Record PlayerStatsSummary : Type := {
  playerName : string;
  sport : string;
  statType : string;
  recentAverage : option number;     (* number | null *)
  last5Games : list number;
  last10Games : list number;
  consistency : Consistency;
  trend : Trend
}.
End Stats.

(** [AnalysisResult] of [server/analyzer.ts]. *)
Module Analysis.
Record AnalysisResult : Type := {
  recommendation : Recommendation;
  confidenceScore : number;
  reasoning : string;
  recentAverage : option string;     (* string | null *)
  gamesAnalyzed : nat
}.
End Analysis.

(** An element of the array [batchAnalyze] receives. *)
Record Projection : Type := {
  lineScore : number;
  playerStats : Stats.PlayerStatsSummary
}.

(** ** The analyzer *)

Section Analyzer.

Local Open Scope string_scope.
Local Open Scope js_scope.

(** [calculateVariance] (lines 19-27): the population standard deviation. *)
Definition sum (values : list number) : number :=
  fold_left (fun sum val => sum + val) values #0.

Definition calculateVariance (values : list number) : number :=
  match values with
  | [] => #0
  | _ =>
      let mean := (sum values / ofNat (List.length values)) in
      let squaredDiffs := map (fun val => JS.Math_pow2 (val - mean)) values in
      let variance := (sum squaredDiffs / ofNat (List.length values)) in
      JS.sqrt variance
  end.

(** [Number.prototype.toFixed] at one digit and the conversion of a number
    to a string in a template literal: built-ins of the language, which no
    property below looks into. *)
Variable toFixed1 : number -> string.
Variable toString : number -> string.

(** The result of the data guard (lines 40-46). *)
Definition insufficientData : Analysis.AnalysisResult :=
  {| Analysis.recommendation := skip;
     Analysis.confidenceScore := #0;
     Analysis.reasoning := "Insufficient data available for analysis";
     Analysis.recentAverage := None;
     Analysis.gamesAnalyzed := 0%nat |}.

(** Lines 54-56: the lengths of the two filtered arrays, as numbers, and
    the binary64 quotient of the larger one by the length of the array. *)
Definition gamesOver (lineScore : number) (last5Games : list number) : number :=
  ofNat (List.length (filter (fun val => val >? lineScore) last5Games)).

Definition gamesUnder (lineScore : number) (last5Games : list number) : number :=
  ofNat (List.length (filter (fun val => val <? lineScore) last5Games)).

Definition hitRate (lineScore : number) (last5Games : list number) : number :=
  Math_max (gamesOver lineScore last5Games) (gamesUnder lineScore last5Games)
  / ofNat (List.length last5Games).

(** Lines 50-51. *)
Definition difference (lineScore recentAverage : number) : number :=
  (recentAverage - lineScore).

Definition percentDifference (lineScore recentAverage : number) : number :=
  ((difference lineScore recentAverage / lineScore) * #100).

(** "Determine recommendation" (lines 63-88): the values of
    [recommendation], [baseConfidence] and [reasoning] after the four-way
    conditional. *)
Definition determineRecommendation (lineScore recentAverage : number)
    (last5Games : list number) : Recommendation * number * string :=
  let difference := difference lineScore recentAverage in
  let percentDifference := percentDifference lineScore recentAverage in
  let gamesOver := gamesOver lineScore last5Games in
  let gamesUnder := gamesUnder lineScore last5Games in
  let hitRate := hitRate lineScore last5Games in
  if (Math_abs percentDifference >? #15) then
    (if (difference >? #0) then over else under,
     #70,
     "Player's recent average (" ++ toFixed1 recentAverage ++ ") is "
       ++ toFixed1 (Math_abs percentDifference) ++ "% "
       ++ (if (difference >? #0) then "above" else "below")
       ++ " the line (" ++ toString lineScore ++ "). ")
  else if (Math_abs percentDifference >? #8) then
    (if (difference >? #0) then over else under,
     #55,
     "Player's recent average (" ++ toFixed1 recentAverage ++ ") is moderately "
       ++ (if (difference >? #0) then "above" else "below")
       ++ " the line (" ++ toString lineScore ++ "). ")
  else if (hitRate >=? JS.lit_0_8) then
    let recommendation := if (gamesOver >? gamesUnder) then over else under in
    (recommendation,
     #60,
     "Player has hit " ++ Recommendation_text recommendation ++ " in "
       ++ toString (Math_max gamesOver gamesUnder) ++ " of last "
       ++ toString (ofNat (List.length last5Games)) ++ " games. ")
  else
    (skip,
     #30,
     "Line (" ++ toString lineScore ++ ") is close to recent average ("
       ++ toFixed1 recentAverage ++ "), making this a coin flip. ").

(** "Adjust confidence based on consistency" (lines 91-98): the value of
    [confidenceAdjustment] and the clause appended to [reasoning]. *)
Definition adjustForConsistency (consistency : Consistency) (reasoning : string)
    : number * string :=
  match consistency with
  | high => (#10, reasoning ++ "Player shows high consistency. ")
  | low => (#(-15), reasoning ++ "Player shows high variance in performance. ")
  | medium => (#0, reasoning)
  end.

(** "Adjust confidence based on trend" (lines 101-113). *)
Definition adjustForTrend (trend : Trend) (recommendation : Recommendation)
    (confidenceAdjustment : number) (reasoning : string) : number * string :=
  if Trend_eqb trend increasing && Recommendation_eqb recommendation over then
    ((confidenceAdjustment + #10), reasoning ++ "Player is trending upward. ")
  else if Trend_eqb trend decreasing && Recommendation_eqb recommendation under then
    ((confidenceAdjustment + #10), reasoning ++ "Player is trending downward. ")
  else if Trend_eqb trend increasing && Recommendation_eqb recommendation under then
    ((confidenceAdjustment - #10), reasoning ++ "Caution: Player is trending upward. ")
  else if Trend_eqb trend decreasing && Recommendation_eqb recommendation over then
    ((confidenceAdjustment - #10), reasoning ++ "Caution: Player is trending downward. ")
  else (confidenceAdjustment, reasoning).

(** The state at line 116: [recommendation], the clamped [confidenceScore]
    and [reasoning], before the low-confidence check. *)
Definition scoreProjection (lineScore recentAverage : number)
    (last5Games : list number) (consistency : Consistency) (trend : Trend)
    : Recommendation * number * string :=
  let '(recommendation, baseConfidence, reasoning) :=
    determineRecommendation lineScore recentAverage last5Games in
  let '(confidenceAdjustment, reasoning) :=
    adjustForConsistency consistency reasoning in
  let '(confidenceAdjustment, reasoning) :=
    adjustForTrend trend recommendation confidenceAdjustment reasoning in
  let confidenceScore :=
    Math_max #0 (Math_min #100 (baseConfidence + confidenceAdjustment)) in
  (recommendation, confidenceScore, reasoning).

(** [analyzeProjection] (lines 32-131), over the function that computes the
    standard deviation at line 59. *)
Definition analyzeProjectionWith (calculateVariance : list number -> number)
    (lineScore : number) (playerStats : Stats.PlayerStatsSummary)
    : Analysis.AnalysisResult :=
  let recentAverage := Stats.recentAverage playerStats in
  let last5Games := Stats.last5Games playerStats in
  let last10Games := Stats.last10Games playerStats in
  let consistency := Stats.consistency playerStats in
  let trend := Stats.trend playerStats in
  match recentAverage with
  | None => insufficientData
  | Some recentAverage =>
      if (List.length last5Games =? 0)%nat then insufficientData
      else
        let stdDev := calculateVariance last5Games in
        let coefficientOfVariation := (stdDev / recentAverage) in
        let '(recommendation, confidenceScore, reasoning) :=
          scoreProjection lineScore recentAverage last5Games consistency trend in
        let '(recommendation, reasoning) :=
          if (confidenceScore <? #45) && negb (Recommendation_eqb recommendation skip)
          then (skip, reasoning ++ "Low confidence - recommend skipping this pick.")
          else (recommendation, reasoning) in
        {| Analysis.recommendation := recommendation;
           Analysis.confidenceScore := Math_round confidenceScore;
           Analysis.reasoning := JS.trim reasoning;
           Analysis.recentAverage := Some (toFixed1 recentAverage);
           Analysis.gamesAnalyzed := List.length last5Games |}
  end.

Definition analyzeProjection : number -> Stats.PlayerStatsSummary -> Analysis.AnalysisResult :=
  analyzeProjectionWith calculateVariance.

(** [batchAnalyze] (lines 136-142). *)
Definition batchAnalyze (projections : list Projection) : list Analysis.AnalysisResult :=
  map (fun p => analyzeProjection (lineScore p) (playerStats p)) projections.

(** *** The stages of [analyzeProjection] named on their own *)

Definition baseRecommendation (lineScore recentAverage : number)
    (last5Games : list number) : Recommendation :=
  fst (fst (determineRecommendation lineScore recentAverage last5Games)).

Definition baseConfidence (lineScore recentAverage : number)
    (last5Games : list number) : number :=
  snd (fst (determineRecommendation lineScore recentAverage last5Games)).

(** [recommendation] and [confidenceScore] as they stand at line 116. *)
Definition computedRecommendation (lineScore recentAverage : number)
    (last5Games : list number) (consistency : Consistency) (trend : Trend)
    : Recommendation :=
  fst (fst (scoreProjection lineScore recentAverage last5Games consistency trend)).

Definition computedConfidence (lineScore recentAverage : number)
    (last5Games : list number) (consistency : Consistency) (trend : Trend)
    : number :=
  snd (fst (scoreProjection lineScore recentAverage last5Games consistency trend)).

End Analyzer.

(** ** The specification's vocabulary *)

(** Integer-valued description of the confidence arithmetic. *)
Definition clamp (x lo hi : Z) : Z := Z.max lo (Z.min hi x).

Definition consistencyAdjustment (c : Consistency) : Z :=
  match c with high => 10 | low => -15 | medium => 0 end.

Definition trendAdjustment (t : Trend) (r : Recommendation) : Z :=
  match t, r with
  | increasing, over | decreasing, under => 10
  | increasing, under | decreasing, over => -10
  | _, _ => 0
  end.

(** The pairs of base recommendation and base confidence the four-way
    conditional can produce. *)
Definition baseOutcomes : list (Recommendation * Z) :=
  [(over, 70); (under, 70); (over, 55); (under, 55); (over, 60); (under, 60);
   (skip, 30)].

(** First match wins: the value of the first rule whose condition holds. *)
Fixpoint firstMatch {A : Type} (rules : list (bool * A)) (otherwise : A) : A :=
  match rules with
  | [] => otherwise
  | (cond, value) :: rest => if cond then value else firstMatch rest otherwise
  end.

(** The number of entries of a list that satisfy a test. *)
Fixpoint countIf {A : Type} (p : A -> bool) (l : list A) : nat :=
  match l with
  | [] => 0%nat
  | x :: rest => ((if p x then 1 else 0) + countIf p rest)%nat
  end.

(** The base recommendation and base confidence as the specification words
    them: a priority list over the percent difference and the hit rate. *)
Definition direction (difference : number) : Recommendation :=
  if (difference >? #0)%js then over else under.

Definition majority (gamesOver gamesUnder : number) : Recommendation :=
  if (gamesOver >? gamesUnder)%js then over else under.

Definition specBase (lineScore recentAverage : number) (last5Games : list number)
    : Recommendation * Z :=
  let difference := (recentAverage - lineScore)%js in
  let percentDifference := (difference / lineScore * #100)%js in
  let gamesOver := ofNat (countIf (fun g => g >? lineScore)%js last5Games) in
  let gamesUnder := ofNat (countIf (fun g => g <? lineScore)%js last5Games) in
  let hitRate :=
    (Math_max gamesOver gamesUnder / ofNat (List.length last5Games))%js in
  firstMatch
    [ ((Math_abs percentDifference >? #15)%js, (direction difference, 70));
      ((Math_abs percentDifference >? #8)%js, (direction difference, 55));
      ((hitRate >=? JS.lit_0_8)%js, (majority gamesOver gamesUnder, 60)) ]
    (skip, 30).

(** ** Rounding, in two stages *)

(** The second half of [binary_round_aux]: the rounded mantissa is
    re-aligned and checked against the largest exponent. *)
Definition round_finish (sx : bool) (m : Z) (e : Z) : spec_float :=
  let '(mrs, e') := shr_fexp 53 1024 m e loc_Exact in
  match shr_m mrs with
  | Z0 => S754_zero sx
  | Zpos m' => if e' <=? 1024 - 53 then S754_finite sx m' e' else S754_infinity sx
  | _ => S754_nan
  end.

(** ** Inputs of the specification's examples *)

Definition stats (recentAverage : option number) (last5Games : list number)
    (consistency : Consistency) (trend : Trend) : Stats.PlayerStatsSummary :=
  {| Stats.playerName := "Example Player"%string;
     Stats.sport := "NBA"%string;
     Stats.statType := "Points"%string;
     Stats.recentAverage := recentAverage;
     Stats.last5Games := last5Games;
     Stats.last10Games := last5Games;
     Stats.consistency := consistency;
     Stats.trend := trend |}.

(** Example 1: a 25% gap, high consistency, supporting trend. *)
Definition example1 : Stats.PlayerStatsSummary :=
  stats (Some (ofZ 25)) (map ofZ [24; 26; 25; 27; 23]) high increasing.

(** Example 2: a 5% gap and a hit rate of 2/5. *)
Definition example2 : Stats.PlayerStatsSummary :=
  stats (Some (ofZ 21)) (map ofZ [19; 20; 21; 22; 20]) medium stable.

(** Example 3: no data. *)
Definition example3 : Stats.PlayerStatsSummary :=
  stats None [] low stable.

(** Example 4: a 10% gap, low consistency, opposing trend. *)
Definition example4 : Stats.PlayerStatsSummary :=
  stats (Some (ofZ 22)) (map ofZ [21; 23; 22; 24; 20]) low decreasing.

(** An average is missing although five games are listed. *)
Definition exampleNoAverage : Stats.PlayerStatsSummary :=
  stats None (map ofZ [24; 26; 25; 27; 23]) high increasing.

(** [example1] with other names and another ten-game history. *)
Definition example1Renamed : Stats.PlayerStatsSummary :=
  {| Stats.playerName := "Another Player"%string;
     Stats.sport := "NFL"%string;
     Stats.statType := "Rushing Yards"%string;
     Stats.recentAverage := Some (ofZ 25);
     Stats.last5Games := map ofZ [24; 26; 25; 27; 23];
     Stats.last10Games := map ofZ [1; 2; 3; 4; 5; 6; 7; 8; 9; 10];
     Stats.consistency := high;
     Stats.trend := increasing |}.

(** Four of five games above a line of 20 that the average of 21 is close
    to. *)
Definition exampleHitRate : list number := map ofZ [21; 22; 21; 19; 22].

(** What [toFixed(1)] returns on 25 and on 22 and what a template literal
    makes of the line 20: the renderings under which the examples are
    evaluated.  The properties themselves hold for every rendering. *)
Definition render_25_0 (_ : number) : string := "25.0"%string.
Definition render_22_0 (_ : number) : string := "22.0"%string.
Definition render_20 (_ : number) : string := "20"%string.

(** ** The analyzer, further stages *)

(** [baseConfidence + confidenceAdjustment], the sum that line 116 clamps,
    and [reasoning] as it stands at line 116. *)
Definition unclampedConfidence (toFixed1 toString : number -> string)
    (lineScore recentAverage : number) (last5Games : list number)
    (consistency : Consistency) (trend : Trend) : number :=
  let '(recommendation, baseConfidence, reasoning) :=
    determineRecommendation toFixed1 toString lineScore recentAverage last5Games in
  let '(confidenceAdjustment, reasoning) :=
    adjustForConsistency consistency reasoning in
  let '(confidenceAdjustment, reasoning) :=
    adjustForTrend trend recommendation confidenceAdjustment reasoning in
  (baseConfidence + confidenceAdjustment)%js.

Definition computedReasoning (toFixed1 toString : number -> string)
    (lineScore recentAverage : number) (last5Games : list number)
    (consistency : Consistency) (trend : Trend) : string :=
  snd (scoreProjection toFixed1 toString lineScore recentAverage last5Games
         consistency trend).

(** A summary with another consistency, the other fields kept. *)
Definition withConsistency (consistency : Consistency)
    (playerStats : Stats.PlayerStatsSummary) : Stats.PlayerStatsSummary :=
  {| Stats.playerName := Stats.playerName playerStats;
     Stats.sport := Stats.sport playerStats;
     Stats.statType := Stats.statType playerStats;
     Stats.recentAverage := Stats.recentAverage playerStats;
     Stats.last5Games := Stats.last5Games playerStats;
     Stats.last10Games := Stats.last10Games playerStats;
     Stats.consistency := consistency;
     Stats.trend := Stats.trend playerStats |}.

(** A string starts with a character that is not white space, and a string
    ends with a given suffix. *)
Definition startsWithInk (s : string) : Prop :=
  exists c rest, s = String c rest /\ JS.isWhiteSpace c = false.

Definition endsWith (s suffix : string) : Prop :=
  exists before, s = (before ++ suffix)%string.

(** ** The client: [getConfidenceColor] of the home page *)

Definition getConfidenceColor (score : number) : string :=
  if (score >=? #70)%js then "text-green-500"%string
  else if (score >=? #50)%js then "text-yellow-500"%string
  else "text-red-500"%string.

(** ** [server/statmuse.ts] *)

Module Request.
Record StatsRequest : Type := {
  playerName : string;
  sport : string;
  statType : string
}.
End Request.

Section StatMuse.

(** Lines 28-105 of [getPlayerStats]: the prompt, and in the [try] block
    the call of the language model, the check of the content and
    [JSON.parse].  [None] stands for an exception thrown anywhere in the
    block. *)
Variable queryStats : string -> string -> string -> option Stats.PlayerStatsSummary.

(** [getPlayerStats] (lines 23-120): the parsed summary, or on any error
    the empty summary of lines 109-118. *)
Definition getPlayerStats (playerName sport statType : string)
    : Stats.PlayerStatsSummary :=
  match queryStats playerName sport statType with
  | Some stats => stats
  | None =>
      {| Stats.playerName := playerName;
         Stats.sport := sport;
         Stats.statType := statType;
         Stats.recentAverage := None;
         Stats.last5Games := [];
         Stats.last10Games := [];
         Stats.consistency := low;
         Stats.trend := stable |}
  end.

Definition BATCH_SIZE : nat := 5.

(** [Array.prototype.slice] with two indices, the first not above the
    second. *)
Definition slice {A : Type} (start stop : nat) (l : list A) : list A :=
  firstn (stop - start) (skipn start l).

(** The [for] loop of [batchGetPlayerStats] (lines 132-138), from the index
    [i] with the [results] collected so far.  Each turn adds [BATCH_SIZE] to
    [i]; [fuel] bounds the number of turns. *)
Fixpoint batchLoop (projections : list Request.StatsRequest) (fuel i : nat)
    (results : list Stats.PlayerStatsSummary) : list Stats.PlayerStatsSummary :=
  match fuel with
  | O => results
  | S fuel' =>
      if (i <? List.length projections)%nat then
        let batch := slice i (i + BATCH_SIZE) projections in
        let batchResults :=
          map (fun proj => getPlayerStats (Request.playerName proj)
                             (Request.sport proj) (Request.statType proj)) batch in
        batchLoop projections fuel' (i + BATCH_SIZE) (results ++ batchResults)
      else results
  end.

(** [batchGetPlayerStats] (lines 125-141).  The loop takes no more turns
    than there are projections. *)
Definition batchGetPlayerStats (projections : list Request.StatsRequest)
    : list Stats.PlayerStatsSummary :=
  batchLoop projections (List.length projections) 0 [].

End StatMuse.

(** ** [server/prizepicks.ts] *)

Module PrizePicks.

(** [{ id, type }] under [data] of a relationship. *)
Module Ref.
Record t : Type := { id : string; type : string }.
End Ref.

(** [{ data?: ... }], the value of [new_player] and of [league]. *)
Module Relationship.
Record t : Type := { data : option Ref.t }.
End Relationship.

Module Relationships.
Record t : Type := {
  new_player : option Relationship.t;
  league : option Relationship.t
}.
End Relationships.

Module ProjectionAttributes.
Record t : Type := {
  line_score : number;
  stat_type : string;
  description : option string;
  board_time : option string;
  odds_type : option string;
  status : option string
}.
End ProjectionAttributes.

(** [PrizePicksProjection]. *)
Module Projection.
Record t : Type := {
  id : string;
  type : string;
  attributes : ProjectionAttributes.t;
  relationships : option Relationships.t
}.
End Projection.

(** The attributes of an included object: those of [PrizePicksPlayer] and
    of [PrizePicksLeague] together, as the objects carry no more type at
    run time than their [type] field. *)
Module IncludedAttributes.
Record t : Type := {
  name : string;
  team : option string;
  team_name : option string;
  position : option string;
  sport : option string
}.
End IncludedAttributes.

Module Included.
Record t : Type := {
  id : string;
  type : string;
  attributes : IncludedAttributes.t
}.
End Included.

(** [PrizePicksResponse]. *)
Module Response.
Record t : Type := {
  data : list Projection.t;
  included : option (list Included.t)
}.
End Response.

(** An element of the array [parsePrizePicksData] returns. *)
Module Parsed.
Record t : Type := {
  id : string;
  playerName : string;
  team : string;
  sport : string;
  league : string;
  statType : string;
  lineScore : string;
  gameTime : option string;
  status : string
}.
End Parsed.

(** A [Map] with string keys: the bindings, the latest first. *)
Definition Map (V : Type) : Type := list (string * V).

Definition Map_set {V : Type} (key : string) (value : V) (m : Map V) : Map V :=
  (key, value) :: m.

Fixpoint Map_get {V : Type} (key : string) (m : Map V) : option V :=
  match m with
  | [] => None
  | (k, v) :: rest => if String.eqb k key then Some v else Map_get key rest
  end.

(** A string that may be undefined is truthy when it is defined and not
    empty. *)
Definition truthy (s : option string) : bool :=
  match s with
  | Some s => negb (String.eqb s "")
  | None => false
  end.

(** [a || b] between strings that may be undefined, and [a || 'literal']. *)
Definition or_else (a b : option string) : option string :=
  if truthy a then a else b.

Definition or_literal (a : option string) (b : string) : string :=
  match a with
  | Some s => if String.eqb s "" then b else s
  | None => b
  end.

(** The body of [included.forEach] (lines 105-111) on the two maps. *)
Definition register (maps : Map Included.t * Map Included.t) (item : Included.t)
    : Map Included.t * Map Included.t :=
  let '(playersMap, leaguesMap) := maps in
  if String.eqb (Included.type item) "new_player" then
    (Map_set (Included.id item) item playersMap, leaguesMap)
  else if String.eqb (Included.type item) "league" then
    (playersMap, Map_set (Included.id item) item leaguesMap)
  else (playersMap, leaguesMap).

(** The included objects that [register] puts into [playersMap], those it
    puts into [leaguesMap], and the bindings of a list of objects. *)
Definition isPlayer (item : Included.t) : bool :=
  String.eqb (Included.type item) "new_player".

Definition isLeague (item : Included.t) : bool :=
  negb (String.eqb (Included.type item) "new_player")
  && String.eqb (Included.type item) "league".

Definition bindings (items : list Included.t) : Map Included.t :=
  map (fun item => (Included.id item, item)) items.

(** [relationships?.new_player?.data?.id] and the same for [league]. *)
Definition relatedId (select : Relationships.t -> option Relationship.t)
    (projection : Projection.t) : option string :=
  match Projection.relationships projection with
  | Some relationships =>
      match select relationships with
      | Some relationship =>
          match Relationship.data relationship with
          | Some ref => Some (Ref.id ref)
          | None => None
          end
      | None => None
      end
  | None => None
  end.

Section Parse.

(** [Number.prototype.toString], applied to [line_score]. *)
Variable toString : number -> string.

(** The callback of [data.map] (lines 114-132). *)
Definition parseProjection (playersMap leaguesMap : Map Included.t)
    (projection : Projection.t) : Parsed.t :=
  let playerId := relatedId Relationships.new_player projection in
  let leagueId := relatedId Relationships.league projection in
  let player :=
    match playerId with
    | Some id => if truthy playerId then Map_get id playersMap else None
    | None => None
    end in
  let league :=
    match leagueId with
    | Some id => if truthy leagueId then Map_get id leaguesMap else None
    | None => None
    end in
  let attribute {A : Type} (item : option Included.t)
        (field : IncludedAttributes.t -> A) : option A :=
    option_map (fun i => field (Included.attributes i)) item in
  let optional (item : option Included.t)
        (field : IncludedAttributes.t -> option string) : option string :=
    match item with
    | Some i => field (Included.attributes i)
    | None => None
    end in
  {| Parsed.id := Projection.id projection;
     Parsed.playerName :=
       or_literal (attribute player IncludedAttributes.name) "Unknown";
     Parsed.team :=
       or_literal (or_else (optional player IncludedAttributes.team_name)
                           (optional player IncludedAttributes.team)) "";
     Parsed.sport :=
       or_literal (or_else (optional league IncludedAttributes.sport)
                           (attribute league IncludedAttributes.name)) "";
     Parsed.league := or_literal (attribute league IncludedAttributes.name) "";
     Parsed.statType :=
       ProjectionAttributes.stat_type (Projection.attributes projection);
     Parsed.lineScore :=
       toString (ProjectionAttributes.line_score (Projection.attributes projection));
     Parsed.gameTime :=
       if truthy (ProjectionAttributes.board_time (Projection.attributes projection))
       then ProjectionAttributes.board_time (Projection.attributes projection)
       else None;
     Parsed.status :=
       or_literal (ProjectionAttributes.status (Projection.attributes projection))
         "active" |}.

(** [parsePrizePicksData] (lines 98-133). *)
Definition parsePrizePicksData (response : Response.t) : list Parsed.t :=
  let data := Response.data response in
  let included :=
    match Response.included response with
    | Some included => included
    | None => []
    end in
  let '(playersMap, leaguesMap) := fold_left register included ([], []) in
  map (parseProjection playersMap leaguesMap) data.

End Parse.

End PrizePicks.

(** ** A response of the projections API, for the examples *)

Definition includedObject (id type name : string) (team_name sport : option string)
    : PrizePicks.Included.t :=
  {| PrizePicks.Included.id := id;
     PrizePicks.Included.type := type;
     PrizePicks.Included.attributes :=
       {| PrizePicks.IncludedAttributes.name := name;
          PrizePicks.IncludedAttributes.team := None;
          PrizePicks.IncludedAttributes.team_name := team_name;
          PrizePicks.IncludedAttributes.position := None;
          PrizePicks.IncludedAttributes.sport := sport |} |}.

Definition relationTo (id type : string) : option PrizePicks.Relationship.t :=
  Some {| PrizePicks.Relationship.data :=
            Some {| PrizePicks.Ref.id := id; PrizePicks.Ref.type := type |} |}.

Definition projectionOf (id : string) (line_score : number) (stat_type : string)
    (relationships : option PrizePicks.Relationships.t) : PrizePicks.Projection.t :=
  {| PrizePicks.Projection.id := id;
     PrizePicks.Projection.type := "projection"%string;
     PrizePicks.Projection.attributes :=
       {| PrizePicks.ProjectionAttributes.line_score := line_score;
          PrizePicks.ProjectionAttributes.stat_type := stat_type;
          PrizePicks.ProjectionAttributes.description := None;
          PrizePicks.ProjectionAttributes.board_time := None;
          PrizePicks.ProjectionAttributes.odds_type := None;
          PrizePicks.ProjectionAttributes.status := None |};
     PrizePicks.Projection.relationships := relationships |}.

(** Two player objects share the id 42, the later one is the current one;
    a league object has the id 42 as well; a stat-type object is neither. *)
Definition exampleIncluded : list PrizePicks.Included.t :=
  [ includedObject "42" "new_player" "Old Name" (Some "BOS"%string) None;
    includedObject "42" "league" "NBA" None (Some "Basketball"%string);
    includedObject "42" "new_player" "Jayson Tatum" (Some "Celtics"%string) None;
    includedObject "7" "stat_type" "Points" None None ]%string.

(** The first projection names player 42 and league 42, the second has no
    relationships. *)
Definition exampleProjection1 : PrizePicks.Projection.t :=
  projectionOf "p1" (ofZ 20) "Points"
    (Some {| PrizePicks.Relationships.new_player := relationTo "42" "new_player";
             PrizePicks.Relationships.league := relationTo "42" "league" |}).

Definition exampleProjection2 : PrizePicks.Projection.t :=
  projectionOf "p2" (ofZ 20) "Rebounds" None.

Definition exampleData : list PrizePicks.Projection.t :=
  [exampleProjection1; exampleProjection2].

Definition exampleResponse : PrizePicks.Response.t :=
  {| PrizePicks.Response.data := exampleData;
     PrizePicks.Response.included := Some exampleIncluded |}.

(** A lookup of statistics that fails. *)
Definition queryFails (_ _ _ : string) : option Stats.PlayerStatsSummary := None.

(** ** Properties *)

(** *** Counting *)

Lemma countIf_filter {A : Type} (p : A -> bool) (l : list A) :
  countIf p l = List.length (filter p l).
Proof.
  induction l as [|x l IH]; simpl; [reflexivity|].
  destruct (p x); simpl; rewrite IH; reflexivity.
Qed.

(** *** Comparison of two numbers *)

(** Two numbers that are [===] are neither [<] nor [>] one another. *)
Lemma strict_eqb_not_ltb (x y : number) :
  JS.strict_eqb x y = true -> JS.ltb x y = false /\ JS.gtb x y = false.
Proof.
  unfold JS.strict_eqb, JS.ltb, JS.gtb, SFeqb, SFltb.
  destruct x as [sx|sx| |sx mx ex], y as [sy|sy| |sy my ey]; simpl;
    try destruct sx; try destruct sy; simpl; try (intros; split; congruence).
  - destruct (ex ?= ey) eqn:E; try (intros; split; congruence).
    destruct (Pos.compare_cont Eq mx my) eqn:E'; simpl; try discriminate.
    apply Z.compare_eq in E. apply Pos.compare_eq in E'. subst.
    rewrite Z.compare_refl, Pos.compare_cont_refl. simpl. auto.
  - destruct (ex ?= ey) eqn:E; try (intros; split; congruence).
    destruct (Pos.compare_cont Eq mx my) eqn:E'; try discriminate.
    apply Z.compare_eq in E. apply Pos.compare_eq in E'. subst.
    rewrite Z.compare_refl, Pos.compare_cont_refl. auto.
Qed.

(** The integers from 45 to 100 are [>= 45] as numbers. *)
Lemma ofZ_geb_45 (n : Z) : 45 <= n <= 100 -> JS.geb (ofZ n) (ofZ 45) = true.
Proof.
  intros Hn.
  assert (H : forallb (fun k => JS.geb (ofZ (45 + Z.of_nat k)) (ofZ 45)) (seq 0 56)
              = true) by (vm_compute; reflexivity).
  rewrite forallb_forall in H.
  specialize (H (Z.to_nat (n - 45))).
  replace (45 + Z.of_nat (Z.to_nat (n - 45))) with n in H by lia.
  apply H. apply in_seq. lia.
Qed.

(** *** Binary64 arithmetic on array lengths

    An array length is an integer below 2^53, which binary64 holds exactly.
    The lemmas below follow [binary_normalize] and [SFdiv] on such values:
    the conversion of a length is a 53-bit mantissa with an exponent between
    -52 and 0, the order of two converted lengths is the order of the
    lengths, and the quotient of a length by one at least twice as large is
    below the literal [0.8]. *)

Unset Implicit Arguments.

(** [digits2_pos p] is the number of binary digits of [p]. *)
Lemma digits2_pos_bounds (p : positive) :
  2 ^ (Zpos (digits2_pos p) - 1) <= Zpos p < 2 ^ Zpos (digits2_pos p).
Proof.
  induction p as [p IH|p IH|]; cbn [digits2_pos].
  - rewrite Pos2Z.inj_succ. change (Zpos p~1) with (2 * Zpos p + 1).
    replace (Z.succ (Zpos (digits2_pos p)) - 1) with (Z.succ (Zpos (digits2_pos p) - 1)) by lia.
    rewrite !Z.pow_succ_r by lia. lia.
  - rewrite Pos2Z.inj_succ. change (Zpos p~0) with (2 * Zpos p).
    replace (Z.succ (Zpos (digits2_pos p)) - 1) with (Z.succ (Zpos (digits2_pos p) - 1)) by lia.
    rewrite !Z.pow_succ_r by lia. lia.
  - simpl. lia.
Qed.

Lemma digits2_pos_unique (p : positive) (d : Z) :
  2 ^ (d - 1) <= Zpos p < 2 ^ d -> Zpos (digits2_pos p) = d.
Proof.
  intros [Hlo Hhi].
  pose proof (digits2_pos_bounds p) as [Hlo' Hhi'].
  assert (0 < d).
  { destruct (Z.ltb_spec 0 d); [assumption|].
    assert (2 ^ d <= 2 ^ 0) by (apply Z.pow_le_mono_r; lia). simpl in *. lia. }
  assert (d - 1 < Zpos (digits2_pos p)).
  { apply (Z.pow_lt_mono_r_iff 2); lia. }
  assert (Zpos (digits2_pos p) - 1 < d).
  { apply (Z.pow_lt_mono_r_iff 2); lia. }
  lia.
Qed.

Lemma binary_round_aux_stages sx mx ex lx :
  binary_round_aux 53 1024 sx mx ex lx
  = let '(mrs, e) := shr_fexp 53 1024 mx ex lx in
    round_finish sx (round_nearest_even (shr_m mrs) (loc_of_shr_record mrs)) e.
Proof. reflexivity. Qed.

Lemma shr_m_of_loc m l : shr_m (shr_record_of_loc m l) = m.
Proof. destruct l as [|[]]; reflexivity. Qed.

Lemma loc_of_shr_of_loc m l : loc_of_shr_record (shr_record_of_loc m l) = l.
Proof. destruct l as [|[]]; reflexivity. Qed.

Lemma round_nearest_even_cases m l :
  round_nearest_even m l = m \/ round_nearest_even m l = m + 1.
Proof.
  destruct l as [|[]]; simpl; auto. destruct (Z.even m); auto.
Qed.

Lemma shr_1_m mrs : 0 <= shr_m mrs -> shr_m (shr_1 mrs) = shr_m mrs / 2.
Proof.
  destruct mrs as [m r s]. simpl. intros Hm.
  destruct m as [|[p|p|]|p]; try lia; simpl.
  - reflexivity.
  - change (Zpos p~1) with (2 * Zpos p + 1). apply Z.div_unique with (r := 1); lia.
  - change (Zpos p~0) with (2 * Zpos p). apply Z.div_unique with (r := 0); lia.
  - reflexivity.
Qed.

(** A mantissa of 53 digits is not shifted, one of 54 digits is shifted by
    one place. *)
Lemma shr_fexp_53 (p : positive) e l :
  Zpos (digits2_pos p) = 53 -> -1074 <= e ->
  shr_fexp 53 1024 (Zpos p) e l = (shr_record_of_loc (Zpos p) l, e).
Proof.
  intros Hd He. unfold shr_fexp, Zdigits2, fexp, emin. rewrite Hd.
  replace (Z.max (53 + e - 53) (3 - 1024 - 53) - e) with 0 by lia.
  reflexivity.
Qed.

Lemma shr_fexp_54 (p : positive) e l :
  Zpos (digits2_pos p) = 54 -> -1075 <= e ->
  shr_fexp 53 1024 (Zpos p) e l = (shr_1 (shr_record_of_loc (Zpos p) l), e + 1).
Proof.
  intros Hd He. unfold shr_fexp, Zdigits2, fexp, emin. rewrite Hd.
  replace (Z.max (54 + e - 53) (3 - 1024 - 53) - e) with 1 by lia.
  reflexivity.
Qed.

(** After rounding, a mantissa that reached 2^53 is renormalised to 2^52
    with the exponent raised by one; any other is kept. *)
Lemma round_finish_shape (q : Z) (e : Z) :
  2 ^ 52 <= q <= 2 ^ 53 -> -1074 <= e <= 970 ->
  exists mr er,
    round_finish false q e = S754_finite false mr er
    /\ ((q < 2 ^ 53 /\ Zpos mr = q /\ er = e)
        \/ (q = 2 ^ 53 /\ Zpos mr = 2 ^ 52 /\ er = e + 1)).
Proof.
  intros Hq He.
  destruct (Z.eq_dec q (2 ^ 53)) as [-> | Hne].
  - exists (Z.to_pos (2 ^ 52)), (e + 1). split.
    + unfold round_finish.
      rewrite (shr_fexp_54 (Z.to_pos (2 ^ 53))); [|reflexivity|lia].
      cbn [shr_record_of_loc shr_1 shr_m].
      replace (e + 1 <=? 1024 - 53) with true by (symmetry; apply Z.leb_le; lia).
      reflexivity.
    + right. repeat split.
  - destruct q as [|p|p]; try (simpl in Hq; lia).
    exists p, e. split.
    + unfold round_finish. rewrite shr_fexp_53; [| |lia].
      * rewrite shr_m_of_loc.
        replace (e <=? 1024 - 53) with true by (symmetry; apply Z.leb_le; lia).
        reflexivity.
      * apply digits2_pos_unique. simpl Z.sub. lia.
    + left. repeat split. lia.
Qed.

(** Rounding a mantissa of 53 or 54 digits raises the exponent by at most
    two, and where it raises it to the top the mantissa is 2^52. *)
Lemma binary_round_aux_shape (q e : Z) (l : location) :
  2 ^ 52 <= q < 2 ^ 54 -> -1074 <= e <= 960 ->
  exists mr er,
    binary_round_aux 53 1024 false q e l = S754_finite false mr er
    /\ er <= e + 2
    /\ (er = e + 2 -> Zpos mr = 2 ^ 52)
    /\ (q < 2 ^ 53 -> er <= e + 1 /\ (er = e + 1 -> Zpos mr = 2 ^ 52)).
Proof.
  intros Hq He. rewrite binary_round_aux_stages.
  destruct q as [|p|p]; try (simpl in Hq; lia).
  destruct (Z.ltb_spec (Zpos p) (2 ^ 53)) as [Hlt | Hge].
  - rewrite shr_fexp_53; [| |lia].
    2:{ apply digits2_pos_unique. simpl Z.sub. lia. }
    rewrite shr_m_of_loc, loc_of_shr_of_loc.
    destruct (round_finish_shape (round_nearest_even (Zpos p) l) e) as [mr [er [Hr Hs]]].
    + destruct (round_nearest_even_cases (Zpos p) l) as [-> | ->]; lia.
    + lia.
    + exists mr, er. split; [exact Hr|].
      destruct Hs as [[_ [_ ->]] | [_ [Hm ->]]]; repeat split; try lia; auto.
  - rewrite shr_fexp_54; [| |lia].
    2:{ apply digits2_pos_unique. simpl Z.sub. lia. }
    set (mrs := shr_1 (shr_record_of_loc (Zpos p) l)).
    assert (Hm : shr_m mrs = Zpos p / 2).
    { unfold mrs. rewrite shr_1_m; rewrite shr_m_of_loc; [reflexivity|lia]. }
    assert (Hh : 2 ^ 52 <= Zpos p / 2 < 2 ^ 53).
    { split.
      - apply Z.div_le_lower_bound; [lia|]. change (2 * 2 ^ 52) with (2 ^ 53). lia.
      - apply Z.div_lt_upper_bound; [lia|]. change (2 * 2 ^ 53) with (2 ^ 54). lia. }
    destruct (round_finish_shape
                (round_nearest_even (shr_m mrs) (loc_of_shr_record mrs)) (e + 1))
      as [mr [er [Hr Hs]]].
    + destruct (round_nearest_even_cases (shr_m mrs) (loc_of_shr_record mrs))
        as [-> | ->]; rewrite Hm; lia.
    + lia.
    + exists mr, er. split; [exact Hr|].
      destruct Hs as [[_ [_ ->]] | [_ [Hmr ->]]]; repeat split; try lia; auto.
Qed.

Lemma Pos_iter_xO (p n : positive) :
  Zpos (Pos.iter xO p n) = Zpos p * 2 ^ Zpos n.
Proof.
  rewrite <- Z.shiftl_mul_pow2 by lia.
  change (Z.shiftl (Zpos p) (Zpos n)) with (Pos.iter (Z.mul 2) (Zpos p) n).
  apply Pos.iter_swap_gen. intros a. reflexivity.
Qed.

(** The conversion of a positive integer below 2^53 is exact. *)
Lemma ofZ_pos_shape (k : Z) :
  0 < k < 2 ^ 53 ->
  exists m e,
    ofZ k = S754_finite false m e
    /\ Zpos (digits2_pos m) = 53
    /\ -52 <= e <= 0
    /\ Zpos m = k * 2 ^ (- e).
Proof.
  intros Hk. destruct k as [|p|p]; try lia.
  unfold ofZ, binary_normalize, binary_round, JS.prec, JS.emax.
  pose proof (digits2_pos_bounds p) as Hd.
  set (d := Zpos (digits2_pos p)) in *.
  assert (Hd53 : 1 <= d <= 53).
  { split; [unfold d; lia|].
    destruct (Z.leb_spec d 53); [assumption|].
    assert (2 ^ 53 <= 2 ^ (d - 1)) by (apply Z.pow_le_mono_r; lia). lia. }
  replace (fexp 53 1024 (d + 0)) with (d - 53) by (unfold fexp, emin; lia).
  unfold shl_align.
  destruct (d - 53 - 0) as [|dd|dd] eqn:Edd; try lia.
  - (* the integer has 53 digits *)
    assert (Hd' : d = 53) by lia. rewrite Hd' in Hd. simpl Z.sub in Hd.
    exists p, 0. rewrite binary_round_aux_stages.
    rewrite shr_fexp_53 by (fold d; lia).
    rewrite shr_m_of_loc, loc_of_shr_of_loc. cbn [round_nearest_even].
    destruct (round_finish_shape (Zpos p) 0) as [mr [er [Hr Hs]]]; [lia|lia|].
    rewrite Hr.
    destruct Hs as [[_ [Hm ->]] | [Hm _]]; [|lia].
    injection Hm as ->. fold d. repeat split; try lia.
  - (* fewer digits: aligned to 53 *)
    assert (Hm : Zpos (Pos.iter xO p dd) = Zpos p * 2 ^ (53 - d)).
    { rewrite Pos_iter_xO. f_equal. f_equal. lia. }
    assert (Hpow : 2 ^ (d - 1) * 2 ^ (53 - d) = 2 ^ 52).
    { rewrite <- Z.pow_add_r by lia. f_equal. lia. }
    assert (Hpow' : 2 ^ d * 2 ^ (53 - d) = 2 ^ 53).
    { rewrite <- Z.pow_add_r by lia. f_equal. lia. }
    assert (Hpos : 0 < 2 ^ (53 - d)) by (apply Z.pow_pos_nonneg; lia).
    assert (Hb : 2 ^ 52 <= Zpos (Pos.iter xO p dd) < 2 ^ 53).
    { rewrite Hm. split.
      - rewrite <- Hpow. apply Z.mul_le_mono_nonneg_r; lia.
      - rewrite <- Hpow'. apply Z.mul_lt_mono_pos_r; lia. }
    assert (Hdig : Zpos (digits2_pos (Pos.iter xO p dd)) = 53).
    { apply digits2_pos_unique. simpl Z.sub. lia. }
    exists (Pos.iter xO p dd), (d - 53). rewrite binary_round_aux_stages.
    rewrite shr_fexp_53 by lia.
    rewrite shr_m_of_loc, loc_of_shr_of_loc. cbn [round_nearest_even].
    destruct (round_finish_shape (Zpos (Pos.iter xO p dd)) (d - 53))
      as [mr [er [Hr Hs]]]; [lia|lia|].
    rewrite Hr.
    destruct Hs as [[_ [Hmr ->]] | [Hmr _]]; [|lia].
    injection Hmr as ->. repeat split; try lia.
    rewrite Hm. f_equal. f_equal. lia.
Qed.

Lemma div_eucl_div_mod (a b : Z) : Z.div_eucl a b = (a / b, a mod b).
Proof. unfold Z.div, Z.modulo. destruct (Z.div_eucl a b). reflexivity. Qed.

Lemma SFdiv_core_binary_53 (m1 m2 : positive) (e1 e2 : Z) :
  Zpos (digits2_pos m1) = 53 -> Zpos (digits2_pos m2) = 53 ->
  -1000 <= e1 - e2 ->
  SFdiv_core_binary 53 1024 (Zpos m1) e1 (Zpos m2) e2
  = (Zpos m1 * 2 ^ 53 / Zpos m2, e1 - e2 - 53,
     new_location (Zpos m2) ((Zpos m1 * 2 ^ 53) mod Zpos m2)).
Proof.
  intros H1 H2 He. unfold SFdiv_core_binary, Zdigits2. rewrite H1, H2.
  replace (Z.min (fexp 53 1024 (53 + e1 - (53 + e2))) (e1 - e2))
    with (e1 - e2 - 53) by (unfold fexp, emin; lia).
  replace (e1 - e2 - (e1 - e2 - 53)) with 53 by lia.
  rewrite Z.shiftl_mul_pow2 by lia.
  rewrite div_eucl_div_mod. reflexivity.
Qed.

Lemma new_location_0 (n : Z) : new_location n 0 = loc_Exact.
Proof.
  unfold new_location, new_location_even, new_location_odd.
  destruct (Z.even n); reflexivity.
Qed.

(** The quotient of two normalised values, the first at most half the
    second, is at most 1/2 = 2^52 * 2^-53. *)
Lemma SFdiv_at_most_half (m1 m2 : positive) (e1 e2 : Z) :
  Zpos (digits2_pos m1) = 53 -> Zpos (digits2_pos m2) = 53 ->
  -52 <= e1 <= 0 -> -52 <= e2 <= 0 ->
  e1 < e2 -> (e1 = e2 - 1 -> Zpos m1 <= Zpos m2) ->
  exists mr er,
    SFdiv 53 1024 (S754_finite false m1 e1) (S754_finite false m2 e2)
    = S754_finite false mr er
    /\ (er < -53 \/ (er = -53 /\ Zpos mr = 2 ^ 52)).
Proof.
  intros H1 H2 He1 He2 Hlt Hm.
  pose proof (digits2_pos_bounds m1) as B1. rewrite H1 in B1.
  pose proof (digits2_pos_bounds m2) as B2. rewrite H2 in B2.
  simpl Z.sub in B1, B2.
  cbn [SFdiv]. rewrite SFdiv_core_binary_53 by (assumption || lia).
  cbn [xorb].
  destruct (Z.eq_dec (Zpos m1) (Zpos m2)) as [Heq | Hne].
  - (* equal mantissas: the quotient is a power of two *)
    rewrite Heq.
    rewrite Z.mul_comm, Z.mod_mul by lia.
    rewrite Z.div_mul by lia. rewrite new_location_0.
    change (2 ^ 53) with (Zpos 9007199254740992).
    rewrite binary_round_aux_stages.
    rewrite (shr_fexp_54 9007199254740992) by (reflexivity || lia).
    change (shr_1 (shr_record_of_loc (Zpos 9007199254740992) loc_Exact))
      with {| shr_m := 4503599627370496; shr_r := false; shr_s := false |}.
    cbn [shr_m loc_of_shr_record round_nearest_even].
    destruct (round_finish_shape 4503599627370496 (e1 - e2 - 53 + 1))
      as [mr' [er' [Hr' Hs]]]; [lia|lia|].
    rewrite Hr'. exists mr', er'. split; [reflexivity|].
    destruct Hs as [[_ [Hmr ->]] | [Habs _]]; [|lia].
    destruct (Z.eq_dec e1 (e2 - 1)); [right|left]; lia.
  - assert (Hq : 2 ^ 52 <= Zpos m1 * 2 ^ 53 / Zpos m2 < 2 ^ 54).
    { split.
      - apply Z.div_le_lower_bound; [lia|]. nia.
      - apply Z.div_lt_upper_bound; [lia|]. nia. }
    destruct (binary_round_aux_shape (Zpos m1 * 2 ^ 53 / Zpos m2) (e1 - e2 - 53)
                (new_location (Zpos m2) ((Zpos m1 * 2 ^ 53) mod Zpos m2)))
      as [mr [er [Hr [Hle [Htop Hlow]]]]]; [lia|lia|].
    exists mr, er. split; [exact Hr|].
    destruct (Z.eq_dec e1 (e2 - 1)) as [E | E].
    + assert (Hsmall : Zpos m1 * 2 ^ 53 / Zpos m2 < 2 ^ 53).
      { apply Z.div_lt_upper_bound; [lia|]. specialize (Hm E). nia. }
      destruct (Hlow Hsmall) as [Hle1 Hm1].
      destruct (Z.eq_dec er (e1 - e2 - 53 + 1)) as [E' | E'].
      * right. split; [lia|]. apply Hm1. exact E'.
      * left. lia.
    + destruct (Z.eq_dec er (e1 - e2 - 53 + 2)) as [E' | E'].
      * destruct (Z.eq_dec e1 (e2 - 2)); [right|left]; lia.
      * left. lia.
Qed.

(** No number is both below and above another. *)
Lemma SFltb_asym (x y : spec_float) : SFltb x y = true -> SFltb y x = false.
Proof.
  unfold SFltb, SFcompare.
  destruct x as [sx|sx| |sx mx ex], y as [sy|sy| |sy my ey];
    try destruct sx; try destruct sy; try congruence.
  - rewrite (Z.compare_antisym ex ey).
    destruct (ex ?= ey); simpl; try congruence.
    change Eq with (CompOpp Eq) at 2. rewrite <- Pos.compare_cont_antisym.
    destruct (Pos.compare_cont Eq mx my); simpl; congruence.
  - rewrite (Z.compare_antisym ex ey).
    destruct (ex ?= ey); simpl; try congruence.
    change Eq with (CompOpp Eq) at 2. rewrite <- Pos.compare_cont_antisym.
    destruct (Pos.compare_cont Eq mx my); simpl; congruence.
Qed.

(** The games above and the games below the line are disjoint. *)
Lemma over_under_le_length (lineScore : number) (last5Games : list number) :
  (List.length (filter (fun val => JS.gtb val lineScore) last5Games)
   + List.length (filter (fun val => JS.ltb val lineScore) last5Games)
   <= List.length last5Games)%nat.
Proof.
  unfold JS.gtb, JS.ltb.
  induction last5Games as [|g gs IH]; simpl; [lia|].
  destruct (SFltb lineScore g) eqn:Hgt.
  - apply SFltb_asym in Hgt. rewrite Hgt. simpl. lia.
  - destruct (SFltb g lineScore); simpl; lia.
Qed.

(** A count that is at most half of the length has a hit rate below
    [0.8]. *)
Lemma ratio_at_most_half_below_0_8 (k n : nat) :
  (0 < n)%nat -> Z.of_nat n < 2 ^ 53 -> (2 * k <= n)%nat ->
  JS.geb (JS.div (ofNat k) (ofNat n)) JS.lit_0_8 = false.
Proof.
  intros Hn Hbound Hk. unfold ofNat.
  destruct (ofZ_pos_shape (Z.of_nat n)) as [m2 [e2 [E2 [D2 [R2 V2]]]]]; [lia|].
  rewrite E2.
  destruct k as [|k'].
  - reflexivity.
  - destruct (ofZ_pos_shape (Z.of_nat (S k'))) as [m1 [e1 [E1 [D1 [R1 V1]]]]]; [lia|].
    rewrite E1.
    pose proof (digits2_pos_bounds m1) as B1. rewrite D1 in B1.
    pose proof (digits2_pos_bounds m2) as B2. rewrite D2 in B2.
    simpl Z.sub in B1, B2.
    assert (Hkn : 2 * Z.of_nat (S k') <= Z.of_nat n) by lia.
    assert (P1 : 0 < 2 ^ (- e1)) by (apply Z.pow_pos_nonneg; lia).
    assert (P2 : 0 < 2 ^ (- e2)) by (apply Z.pow_pos_nonneg; lia).
    assert (Hlt : e1 < e2).
    { destruct (Z.ltb_spec e1 e2) as [|Hge]; [assumption|exfalso].
      assert (2 ^ (- e1) <= 2 ^ (- e2)) by (apply Z.pow_le_mono_r; lia).
      nia. }
    assert (Hm : e1 = e2 - 1 -> Zpos m1 <= Zpos m2).
    { intros ->. rewrite V1, V2.
      replace (- (e2 - 1)) with (Z.succ (- e2)) by lia.
      rewrite Z.pow_succ_r by lia. nia. }
    destruct (SFdiv_at_most_half m1 m2 e1 e2 D1 D2 R1 R2 Hlt Hm) as [mr [er [Hdiv Hs]]].
    unfold JS.div, JS.prec, JS.emax. rewrite Hdiv.
    unfold JS.geb, JS.lit_0_8, SFleb, SFcompare.
    destruct Hs as [Her | [-> Hmr]].
    + replace (-53 ?= er) with Gt; [reflexivity|].
      symmetry. apply Z.compare_gt_iff. lia.
    + injection Hmr as ->. reflexivity.
Qed.

(** On integers below 2^53 the comparison of the converted values is the
    comparison of the integers; so are [>], [===] and [Math.max]. *)
Lemma ofZ_compare (a b : Z) :
  0 <= a < 2 ^ 53 -> 0 <= b < 2 ^ 53 ->
  SFcompare (ofZ a) (ofZ b) = Some (a ?= b).
Proof.
  intros Ha Hb.
  destruct (Z.eq_dec a 0) as [-> | Ha0].
  - destruct (Z.eq_dec b 0) as [-> | Hb0]; [reflexivity|].
    destruct (ofZ_pos_shape b) as [m2 [e2 [E2 _]]]; [lia|].
    rewrite E2. change (ofZ 0) with (S754_zero false). cbn [SFcompare].
    f_equal. symmetry. apply Z.compare_lt_iff. lia.
  - destruct (ofZ_pos_shape a) as [m1 [e1 [E1 [D1 [R1 V1]]]]]; [lia|].
    rewrite E1.
    destruct (Z.eq_dec b 0) as [-> | Hb0].
    + change (ofZ 0) with (S754_zero false). cbn [SFcompare].
      f_equal. symmetry. apply Z.compare_gt_iff. lia.
    + destruct (ofZ_pos_shape b) as [m2 [e2 [E2 [D2 [R2 V2]]]]]; [lia|].
      rewrite E2. cbn [SFcompare]. f_equal.
      pose proof (digits2_pos_bounds m1) as B1. rewrite D1 in B1.
      pose proof (digits2_pos_bounds m2) as B2. rewrite D2 in B2.
      simpl Z.sub in B1, B2.
      assert (P1 : 0 < 2 ^ (- e1)) by (apply Z.pow_pos_nonneg; lia).
      assert (P2 : 0 < 2 ^ (- e2)) by (apply Z.pow_pos_nonneg; lia).
      destruct (Z.compare_spec e1 e2) as [Heq | Hlt | Hgt].
      * subst e2. rewrite Pos.compare_cont_spec.
        replace (Pos.switch_Eq Eq (Pos.compare m1 m2)) with (Zpos m1 ?= Zpos m2)
          by (change (Zpos m1 ?= Zpos m2) with (Pos.compare m1 m2);
              destruct (Pos.compare m1 m2); reflexivity).
        rewrite V1, V2. symmetry. apply Zmult_compare_compat_r. lia.
      * symmetry. apply Z.compare_lt_iff.
        assert (2 * 2 ^ (- e2) <= 2 ^ (- e1)).
        { replace (- e1) with (Z.succ (- e2) + (e2 - e1 - 1)) by lia.
          rewrite Z.pow_add_r, Z.pow_succ_r by lia.
          assert (0 < 2 ^ (e2 - e1 - 1)) by (apply Z.pow_pos_nonneg; lia).
          nia. }
        nia.
      * symmetry. apply Z.compare_gt_iff.
        assert (2 * 2 ^ (- e1) <= 2 ^ (- e2)).
        { replace (- e2) with (Z.succ (- e1) + (e1 - e2 - 1)) by lia.
          rewrite Z.pow_add_r, Z.pow_succ_r by lia.
          assert (0 < 2 ^ (e1 - e2 - 1)) by (apply Z.pow_pos_nonneg; lia).
          nia. }
        nia.
Qed.

Lemma ofNat_gtb (a b : nat) :
  Z.of_nat a < 2 ^ 53 -> Z.of_nat b < 2 ^ 53 ->
  JS.gtb (ofNat a) (ofNat b) = (b <? a)%nat.
Proof.
  intros Ha Hb. unfold JS.gtb, SFltb, ofNat.
  rewrite ofZ_compare by lia.
  destruct (Nat.ltb_spec b a) as [H | H].
  - replace (Z.of_nat b ?= Z.of_nat a) with Lt; [reflexivity|].
    symmetry. apply Z.compare_lt_iff. lia.
  - destruct (Z.of_nat b ?= Z.of_nat a) eqn:E; try reflexivity.
    rewrite Z.compare_lt_iff in E. lia.
Qed.

Lemma ofNat_Math_max (a b : nat) :
  Z.of_nat a < 2 ^ 53 -> Z.of_nat b < 2 ^ 53 ->
  Math_max (ofNat a) (ofNat b) = ofNat (Nat.max a b).
Proof.
  intros Ha Hb.
  assert (Hlt : SFltb (ofNat a) (ofNat b) = (a <? b)%nat).
  { apply (ofNat_gtb b a); assumption. }
  unfold Math_max, ofNat in *.
  destruct a as [|a'].
  - change (ofZ (Z.of_nat 0)) with (S754_zero false).
    destruct b as [|b']; [reflexivity|].
    destruct (ofZ_pos_shape (Z.of_nat (S b'))) as [m2 [e2 [E2 _]]]; [lia|].
    cbn [Nat.max]. rewrite E2. reflexivity.
  - destruct (ofZ_pos_shape (Z.of_nat (S a'))) as [m1 [e1 [E1 _]]]; [lia|].
    rewrite E1 in *.
    destruct b as [|b'].
    + cbn [Nat.max]. rewrite E1. reflexivity.
    + destruct (ofZ_pos_shape (Z.of_nat (S b'))) as [m2 [e2 [E2 _]]]; [lia|].
      rewrite E2 in *. rewrite Hlt.
      destruct (Nat.ltb_spec (S a') (S b')) as [H | H].
      * rewrite Nat.max_r by lia. symmetry. exact E2.
      * rewrite Nat.max_l by lia. symmetry. exact E1.
Qed.

Lemma ofNat_strict_eqb (a b : nat) :
  Z.of_nat a < 2 ^ 53 -> Z.of_nat b < 2 ^ 53 ->
  JS.strict_eqb (ofNat a) (ofNat b) = (a =? b)%nat.
Proof.
  intros Ha Hb. unfold JS.strict_eqb, SFeqb, ofNat.
  rewrite ofZ_compare by lia.
  destruct (Nat.eqb_spec a b) as [-> | H].
  - rewrite Z.compare_refl. reflexivity.
  - destruct (Z.of_nat a ?= Z.of_nat b) eqn:E; try reflexivity.
    apply Z.compare_eq in E. lia.
Qed.

Set Implicit Arguments.

Section AnalyzerProperties.

Variable toFixed1 : number -> string.
Variable toString : number -> string.

Local Open Scope js_scope.

(** *** The four-way conditional *)

Lemma specBase_outcome (lineScore recentAverage : number) (last5Games : list number) :
  In (specBase lineScore recentAverage last5Games) baseOutcomes.
Proof.
  unfold specBase, firstMatch, direction, majority. cbv zeta.
  repeat match goal with
         | |- context [if ?c then _ else _] => destruct c
         end; simpl; tauto.
Qed.

Lemma determineRecommendation_spec (lineScore recentAverage : number)
    (last5Games : list number) :
  baseRecommendation toFixed1 toString lineScore recentAverage last5Games
  = fst (specBase lineScore recentAverage last5Games)
  /\ baseConfidence toFixed1 toString lineScore recentAverage last5Games
     = #(snd (specBase lineScore recentAverage last5Games)).
Proof.
  unfold baseConfidence, baseRecommendation, determineRecommendation, specBase,
    firstMatch, direction, majority, hitRate, gamesOver, gamesUnder,
    percentDifference, difference.
  rewrite !countIf_filter. cbv zeta.
  repeat match goal with
         | |- context [if ?c then _ else _] => destruct c
         end; cbn [fst snd]; split; reflexivity.
Qed.

(** *** The confidence arithmetic *)

(** On the seven possible base outcomes the binary64 computation of lines
    91-116 is the integer one. *)
Lemma confidence_arithmetic (r : Recommendation) (bz : Z) (c : Consistency)
    (t : Trend) (s : string) :
  In (r, bz) baseOutcomes ->
  Math_max #0 (Math_min #100
    (#bz + fst (adjustForTrend t r (fst (adjustForConsistency c s))
                               (snd (adjustForConsistency c s)))))
  = #(clamp (bz + consistencyAdjustment c + trendAdjustment t r) 0 100).
Proof.
  intros Hin. simpl in Hin.
  repeat (destruct Hin as [Hin | Hin]; [injection Hin as <- <- | ]);
    try contradiction; destruct c, t; vm_compute; reflexivity.
Qed.

(** [Math.round] leaves each of the reachable scores as it is. *)
Lemma round_clamped (r : Recommendation) (bz : Z) (c : Consistency) (t : Trend) :
  In (r, bz) baseOutcomes ->
  Math_round #(clamp (bz + consistencyAdjustment c + trendAdjustment t r) 0 100)
  = #(clamp (bz + consistencyAdjustment c + trendAdjustment t r) 0 100).
Proof.
  intros Hin. simpl in Hin.
  repeat (destruct Hin as [Hin | Hin]; [injection Hin as <- <- | ]);
    try contradiction; destruct c, t; vm_compute; reflexivity.
Qed.

(** The comparison at line 119 is the comparison of the integers. *)
Lemma ltb_45_clamped (r : Recommendation) (bz : Z) (c : Consistency) (t : Trend) :
  In (r, bz) baseOutcomes ->
  (#(clamp (bz + consistencyAdjustment c + trendAdjustment t r) 0 100) <? #45)
  = (clamp (bz + consistencyAdjustment c + trendAdjustment t r) 0 100 <? 45)%Z.
Proof.
  intros Hin. simpl in Hin.
  repeat (destruct Hin as [Hin | Hin]; [injection Hin as <- <- | ]);
    try contradiction; destruct c, t; vm_compute; reflexivity.
Qed.

Lemma scoreProjection_recommendation lineScore recentAverage last5Games c t :
  computedRecommendation toFixed1 toString lineScore recentAverage last5Games c t
  = baseRecommendation toFixed1 toString lineScore recentAverage last5Games.
Proof.
  unfold computedRecommendation, baseRecommendation, scoreProjection.
  destruct (determineRecommendation _ _ _ _ _) as [[r b] s].
  destruct (adjustForConsistency c s) as [a s1].
  destruct (adjustForTrend t r a s1) as [a2 s2]. reflexivity.
Qed.

Lemma scoreProjection_confidence lineScore recentAverage last5Games c t :
  computedConfidence toFixed1 toString lineScore recentAverage last5Games c t
  = #(clamp (snd (specBase lineScore recentAverage last5Games)
             + consistencyAdjustment c
             + trendAdjustment t (fst (specBase lineScore recentAverage last5Games)))
            0 100).
Proof.
  pose proof (specBase_outcome lineScore recentAverage last5Games) as Hin.
  destruct (determineRecommendation_spec lineScore recentAverage last5Games)
    as [Hr Hb].
  revert Hr Hb.
  unfold computedConfidence, baseConfidence, baseRecommendation, scoreProjection.
  destruct (determineRecommendation _ _ _ _ _) as [[r b] s]. cbn [fst snd].
  destruct (specBase lineScore recentAverage last5Games) as [r' bz].
  cbn [fst snd]. intros -> ->.
  rewrite <- (confidence_arithmetic c t s Hin).
  destruct (adjustForConsistency c s) as [a s1]. cbn [fst snd].
  destruct (adjustForTrend t r' a s1) as [a2 s2]. reflexivity.
Qed.

(** *** The result of a call that passes the data guard *)

Lemma analyzeProjection_recommendation lineScore playerStats recentAverage :
  Stats.recentAverage playerStats = Some recentAverage ->
  Stats.last5Games playerStats <> [] ->
  Analysis.recommendation (analyzeProjection toFixed1 toString lineScore playerStats)
  = let c := computedConfidence toFixed1 toString lineScore recentAverage
               (Stats.last5Games playerStats) (Stats.consistency playerStats)
               (Stats.trend playerStats) in
    let r := computedRecommendation toFixed1 toString lineScore recentAverage
               (Stats.last5Games playerStats) (Stats.consistency playerStats)
               (Stats.trend playerStats) in
    if (c <? #45) && negb (Recommendation_eqb r skip) then skip else r.
Proof.
  intros Havg Hl5.
  unfold analyzeProjection, analyzeProjectionWith, computedConfidence,
    computedRecommendation.
  rewrite Havg.
  destruct (Stats.last5Games playerStats) as [|g gs] eqn:E; [contradiction|].
  cbn [List.length Nat.eqb].
  destruct (scoreProjection _ _ _ _ _ _ _) as [[r c] s]. cbn [fst snd].
  destruct ((c <? #45) && negb (Recommendation_eqb r skip))%bool; reflexivity.
Qed.

Lemma analyzeProjection_confidenceScore lineScore playerStats recentAverage :
  Stats.recentAverage playerStats = Some recentAverage ->
  Stats.last5Games playerStats <> [] ->
  Analysis.confidenceScore (analyzeProjection toFixed1 toString lineScore playerStats)
  = Math_round (computedConfidence toFixed1 toString lineScore recentAverage
                  (Stats.last5Games playerStats) (Stats.consistency playerStats)
                  (Stats.trend playerStats)).
Proof.
  intros Havg Hl5.
  unfold analyzeProjection, analyzeProjectionWith, computedConfidence.
  rewrite Havg.
  destruct (Stats.last5Games playerStats) as [|g gs] eqn:E; [contradiction|].
  cbn [List.length Nat.eqb].
  destruct (scoreProjection _ _ _ _ _ _ _) as [[r c] s]. cbn [fst snd].
  destruct ((c <? #45) && negb (Recommendation_eqb r skip))%bool; reflexivity.
Qed.

(** The recommendation and the confidence score of a call that passes the
    guard, in the integers. *)
Lemma analyzeProjection_outcome lineScore playerStats recentAverage :
  Stats.recentAverage playerStats = Some recentAverage ->
  Stats.last5Games playerStats <> [] ->
  let base := specBase lineScore recentAverage (Stats.last5Games playerStats) in
  let n := clamp (snd base + consistencyAdjustment (Stats.consistency playerStats)
                  + trendAdjustment (Stats.trend playerStats) (fst base)) 0 100 in
  Analysis.confidenceScore
    (analyzeProjection toFixed1 toString lineScore playerStats) = #n
  /\ Analysis.recommendation
       (analyzeProjection toFixed1 toString lineScore playerStats)
     = if (n <? 45)%Z then skip else fst base.
Proof.
  intros Havg Hl5. cbv zeta.
  pose proof (specBase_outcome lineScore recentAverage
                (Stats.last5Games playerStats)) as Hin.
  rewrite (analyzeProjection_confidenceScore lineScore playerStats Havg Hl5).
  rewrite (analyzeProjection_recommendation lineScore playerStats Havg Hl5).
  cbv zeta.
  rewrite scoreProjection_recommendation, scoreProjection_confidence.
  rewrite (proj1 (determineRecommendation_spec _ _ _)).
  destruct (specBase lineScore recentAverage (Stats.last5Games playerStats))
    as [r bz]. cbn [fst snd].
  rewrite (round_clamped _ _ Hin), (ltb_45_clamped _ _ Hin).
  split; [reflexivity|].
  destruct (_ <? 45)%Z eqn:E; destruct r; try reflexivity.
Qed.

(** *** The data guard *)

Lemma analyzeProjection_guard lineScore playerStats :
  Stats.recentAverage playerStats = None \/ Stats.last5Games playerStats = [] ->
  analyzeProjection toFixed1 toString lineScore playerStats = insufficientData.
Proof.
  intros [Havg | Hl5]; unfold analyzeProjection, analyzeProjectionWith.
  - rewrite Havg. reflexivity.
  - rewrite Hl5. destruct (Stats.recentAverage playerStats); reflexivity.
Qed.

(** C1: when [recentAverage] is null or [last5Games] is empty,
    [analyzeProjection] returns exactly the record with recommendation
    [skip], confidence score 0, the reasoning "Insufficient data available
    for analysis", a null [recentAverage] and [gamesAnalyzed] 0; so
    [gamesAnalyzed] is 0 even when [last5Games] has entries and only the
    average is missing. *)
Theorem C1_insufficient_data lineScore playerStats :
  Stats.recentAverage playerStats = None \/ Stats.last5Games playerStats = [] ->
  analyzeProjection toFixed1 toString lineScore playerStats
  = {| Analysis.recommendation := skip;
       Analysis.confidenceScore := #0;
       Analysis.reasoning := "Insufficient data available for analysis";
       Analysis.recentAverage := None;
       Analysis.gamesAnalyzed := 0 |}.
Proof.
  intros Hguard. rewrite (analyzeProjection_guard lineScore playerStats Hguard).
  reflexivity.
Qed.

(** *** The confidence score *)

(** C2: for every input the confidence score [analyzeProjection] returns is
    an integer between 0 and 100. *)
Theorem C2_confidenceScore_range lineScore playerStats :
  exists n : Z,
    (0 <= n <= 100)%Z
    /\ Analysis.confidenceScore
         (analyzeProjection toFixed1 toString lineScore playerStats) = #n.
Proof.
  destruct (Stats.recentAverage playerStats) as [recentAverage|] eqn:Havg.
  - destruct (Stats.last5Games playerStats) as [|g gs] eqn:Hl5.
    + exists 0%Z. split; [lia|].
      rewrite (analyzeProjection_guard lineScore playerStats (or_intror Hl5)).
      reflexivity.
    + assert (Hne : Stats.last5Games playerStats <> []) by (rewrite Hl5; discriminate).
      destruct (analyzeProjection_outcome lineScore playerStats Havg Hne) as [Hc _].
      eexists. split; [|exact Hc]. unfold clamp. lia.
  - exists 0%Z. split; [lia|].
    rewrite (analyzeProjection_guard lineScore playerStats (or_introl Havg)).
    reflexivity.
Qed.

(** C3: the base recommendation and the base confidence are the first match
    of: |percentDifference| > 15 gives the direction of the difference at
    70; |percentDifference| > 8 gives the direction at 55; hitRate >= 0.8
    gives the majority side at 60; otherwise skip at 30.  Here difference
    is recentAverage - lineScore, percentDifference is
    difference / lineScore * 100, gamesOver and gamesUnder count the
    entries strictly above and strictly below the line, hitRate is their
    maximum over the number of entries, and an entry equal to the line is
    counted on neither side. *)
Theorem C3_base_priority lineScore recentAverage last5Games :
  let difference := recentAverage - lineScore in
  let percentDifference := difference / lineScore * #100 in
  let gamesOver := ofNat (countIf (fun g => g >? lineScore) last5Games) in
  let gamesUnder := ofNat (countIf (fun g => g <? lineScore) last5Games) in
  let hitRate :=
    Math_max gamesOver gamesUnder / ofNat (List.length last5Games) in
  (baseRecommendation toFixed1 toString lineScore recentAverage last5Games,
   baseConfidence toFixed1 toString lineScore recentAverage last5Games)
  = firstMatch
      [ (Math_abs percentDifference >? #15,
         (if difference >? #0 then over else under, #70));
        (Math_abs percentDifference >? #8,
         (if difference >? #0 then over else under, #55));
        (hitRate >=? JS.lit_0_8,
         (if gamesOver >? gamesUnder then over else under, #60)) ]
      (skip, #30)
  /\ forall g, (g =? lineScore) && ((g >? lineScore) || (g <? lineScore)) = false.
Proof.
  cbv zeta. split.
  - unfold baseConfidence, baseRecommendation, determineRecommendation,
      firstMatch, hitRate, gamesOver, gamesUnder, percentDifference, difference.
    rewrite !countIf_filter. cbv zeta.
    repeat match goal with
           | |- context [if ?c then _ else _] => destruct c
           end; reflexivity.
  - intros g. destruct (g =? lineScore) eqn:E; [|reflexivity].
    destruct (strict_eqb_not_ltb _ _ E) as [H1 H2].
    unfold JS.gtb, JS.ltb in *.
    destruct (strict_eqb_not_ltb lineScore g) as [H3 H4].
    + revert E. unfold JS.strict_eqb, SFeqb.
      destruct g as [sx|sx| |sx mx ex], lineScore as [sy|sy| |sy my ey]; simpl;
        try destruct sx; try destruct sy; simpl; try congruence;
        destruct (ex ?= ey)%Z eqn:E1; try congruence;
        destruct (Pos.compare_cont Eq mx my) eqn:E2; simpl; try congruence;
        apply Z.compare_eq in E1; apply Pos.compare_eq in E2; subst;
        rewrite Z.compare_refl, Pos.compare_cont_refl; reflexivity.
    + unfold JS.gtb, JS.ltb in *. rewrite H1, H3. reflexivity.
Qed.

(** C4: for an input that passes the guard the confidence score is
    clamp (baseConfidence + consistencyAdjustment + trendAdjustment, 0, 100),
    with +10 / -15 / 0 for high / low / medium consistency and +10 for a
    trend that supports the base recommendation, -10 for one that opposes
    it and 0 otherwise; so under a base recommendation of [skip] the
    consistency adjustment applies and the trend adjustment is 0. *)
Theorem C4_confidence_formula lineScore playerStats recentAverage :
  Stats.recentAverage playerStats = Some recentAverage ->
  Stats.last5Games playerStats <> [] ->
  let r := baseRecommendation toFixed1 toString lineScore recentAverage
             (Stats.last5Games playerStats) in
  let score := Analysis.confidenceScore
                 (analyzeProjection toFixed1 toString lineScore playerStats) in
  exists bz : Z,
    baseConfidence toFixed1 toString lineScore recentAverage
      (Stats.last5Games playerStats) = #bz
    /\ In (r, bz) baseOutcomes
    /\ score = #(clamp (bz + consistencyAdjustment (Stats.consistency playerStats)
                        + trendAdjustment (Stats.trend playerStats) r) 0 100)
    /\ (r = skip ->
        score = #(clamp (30 + consistencyAdjustment (Stats.consistency playerStats))
                        0 100)).
Proof.
  intros Havg Hl5. cbv zeta.
  destruct (determineRecommendation_spec lineScore recentAverage
              (Stats.last5Games playerStats)) as [Hr Hb].
  pose proof (specBase_outcome lineScore recentAverage
                (Stats.last5Games playerStats)) as Hin.
  destruct (analyzeProjection_outcome lineScore playerStats Havg Hl5) as [Hc _].
  rewrite Hr, Hb, Hc.
  destruct (specBase lineScore recentAverage (Stats.last5Games playerStats))
    as [r bz]. cbn [fst snd] in *.
  exists bz. repeat split; try assumption.
  intros ->. simpl in Hin.
  repeat (destruct Hin as [Hin | Hin]; [try discriminate Hin | ]);
    try contradiction.
  injection Hin as <-.
  destruct (Stats.trend playerStats); cbn [trendAdjustment];
    rewrite Z.add_0_r; reflexivity.
Qed.

(** C5: when the computed confidence score is below 45 and the
    recommendation at that point is not [skip], [analyzeProjection] returns
    [skip] and the confidence score it returns is the computed, clamped
    value. *)
Theorem C5_forced_skip_keeps_score lineScore playerStats recentAverage :
  Stats.recentAverage playerStats = Some recentAverage ->
  Stats.last5Games playerStats <> [] ->
  let computed := computedConfidence toFixed1 toString lineScore recentAverage
                    (Stats.last5Games playerStats) (Stats.consistency playerStats)
                    (Stats.trend playerStats) in
  (computed <? #45) = true ->
  computedRecommendation toFixed1 toString lineScore recentAverage
    (Stats.last5Games playerStats) (Stats.consistency playerStats)
    (Stats.trend playerStats) <> skip ->
  Analysis.recommendation
    (analyzeProjection toFixed1 toString lineScore playerStats) = skip
  /\ Analysis.confidenceScore
       (analyzeProjection toFixed1 toString lineScore playerStats) = computed.
Proof.
  intros Havg Hl5. cbv zeta. intros Hlow Hrec.
  rewrite (analyzeProjection_confidenceScore lineScore playerStats Havg Hl5).
  rewrite (analyzeProjection_recommendation lineScore playerStats Havg Hl5).
  cbv zeta. rewrite Hlow. split.
  - destruct (computedRecommendation _ _ _ _ _ _ _); try reflexivity.
  - rewrite scoreProjection_confidence.
    apply round_clamped with (r := fst (specBase lineScore recentAverage
                                           (Stats.last5Games playerStats))).
    rewrite <- surjective_pairing. apply specBase_outcome.
Qed.

(** C8: a recommendation of [over] or [under] comes with a confidence score
    of at least 45. *)
Theorem C8_non_skip_at_least_45 lineScore playerStats :
  let result := analyzeProjection toFixed1 toString lineScore playerStats in
  Analysis.recommendation result = over \/ Analysis.recommendation result = under ->
  exists n : Z,
    (45 <= n <= 100)%Z
    /\ Analysis.confidenceScore result = #n
    /\ (Analysis.confidenceScore result >=? #45) = true.
Proof.
  cbv zeta.
  destruct (Stats.recentAverage playerStats) as [recentAverage|] eqn:Havg.
  - destruct (Stats.last5Games playerStats) as [|g gs] eqn:Hl5.
    + rewrite (analyzeProjection_guard lineScore playerStats (or_intror Hl5)).
      simpl. intros [H | H]; discriminate H.
    + assert (Hne : Stats.last5Games playerStats <> []) by (rewrite Hl5; discriminate).
      destruct (analyzeProjection_outcome lineScore playerStats Havg Hne)
        as [Hc Hr].
      rewrite Hc, Hr.
      match goal with |- context [(?n <? 45)%Z] => set (k := n) end.
      destruct (k <? 45)%Z eqn:E.
      * intros [H | H]; discriminate H.
      * intros _. apply Z.ltb_ge in E.
        assert (k <= 100)%Z by (unfold k, clamp; lia).
        exists k. repeat split; try assumption.
        apply ofZ_geb_45. lia.
  - rewrite (analyzeProjection_guard lineScore playerStats (or_introl Havg)).
    simpl. intros [H | H]; discriminate H.
Qed.

(** *** A line of zero *)

(** C6, as amended: with a line of exactly 0, an average that is a number
    other than 0 and NaN, and a non-empty [last5Games], the percent
    difference is infinite and the first branch is taken: base confidence
    70 and recommendation [over] for a positive average, [under] for a
    negative one, which is also the recommendation returned. *)
Theorem C6_zero_line lineScore playerStats recentAverage :
  (lineScore =? #0) = true ->
  Stats.recentAverage playerStats = Some recentAverage ->
  JS.isNaN recentAverage = false ->
  (recentAverage =? #0) = false ->
  Stats.last5Games playerStats <> [] ->
  let last5Games := Stats.last5Games playerStats in
  let direction := if recentAverage >? #0 then over else under in
  JS.isInfinite (percentDifference lineScore recentAverage) = true
  /\ (Math_abs (percentDifference lineScore recentAverage) >? #15) = true
  /\ baseConfidence toFixed1 toString lineScore recentAverage last5Games = #70
  /\ baseRecommendation toFixed1 toString lineScore recentAverage last5Games
     = direction
  /\ ((recentAverage >? #0) = true \/ (recentAverage <? #0) = true)
  /\ Analysis.recommendation
       (analyzeProjection toFixed1 toString lineScore playerStats) = direction.
Proof.
  intros Hline Havg Hnan Hnz Hl5. cbv zeta.
  assert (Hpd : JS.isInfinite (percentDifference lineScore recentAverage) = true
                /\ (Math_abs (percentDifference lineScore recentAverage) >? #15) = true
                /\ (difference lineScore recentAverage >? #0) = (recentAverage >? #0)
                /\ ((recentAverage >? #0) = true \/ (recentAverage <? #0) = true)).
  { destruct lineScore as [sl|sl| |sl ml el];
      try discriminate Hline; try (destruct sl; discriminate Hline).
    destruct recentAverage as [sa|sa| |sa ma ea]; try discriminate Hnan;
      try (destruct sa; discriminate Hnz);
      destruct sl, sa; vm_compute; auto. }
  destruct Hpd as [Hinf [Hgt [Hdir Hsign]]].
  assert (Hbase : specBase lineScore recentAverage (Stats.last5Games playerStats)
                  = (if recentAverage >? #0 then over else under, 70%Z)).
  { unfold specBase, firstMatch, direction.
    fold (difference lineScore recentAverage).
    fold (percentDifference lineScore recentAverage).
    rewrite Hgt, Hdir. reflexivity. }
  destruct (determineRecommendation_spec lineScore recentAverage
              (Stats.last5Games playerStats)) as [Hr Hb].
  rewrite Hbase in Hr, Hb. cbn [fst snd] in Hr, Hb.
  repeat split; try assumption.
  destruct (analyzeProjection_outcome lineScore playerStats Havg Hl5) as [_ Hrec].
  rewrite Hrec, Hbase. cbn [fst snd].
  destruct (recentAverage >? #0), (Stats.consistency playerStats),
    (Stats.trend playerStats); reflexivity.
Qed.

(** *** The batch wrapper *)

(** C7: [batchAnalyze] returns a list of the length of its input whose i-th
    element is [analyzeProjection] of the i-th item's line and statistics;
    the result of an item is the same whatever items surround it. *)
Theorem C7_batch_pointwise (projections : list Projection) :
  List.length (batchAnalyze toFixed1 toString projections) = List.length projections
  /\ (forall i,
        nth_error (batchAnalyze toFixed1 toString projections) i
        = option_map
            (fun p => analyzeProjection toFixed1 toString (lineScore p) (playerStats p))
            (nth_error projections i))
  /\ (forall before p after,
        batchAnalyze toFixed1 toString (before ++ p :: after)
        = batchAnalyze toFixed1 toString before
          ++ analyzeProjection toFixed1 toString (lineScore p) (playerStats p)
          :: batchAnalyze toFixed1 toString after)%list.
Proof.
  unfold batchAnalyze. repeat split.
  - apply length_map.
  - intros i. apply nth_error_map.
  - intros before p after. rewrite map_app. reflexivity.
Qed.

(** *** What the result does not depend on *)

(** C9: two inputs that agree on the line, the average, [last5Games], the
    consistency and the trend give the same result, whatever their
    [last10Games], player name, sport and stat type; and the standard
    deviation computed at line 59 (with the coefficient of variation
    derived from it) has no influence on the result. *)
Theorem C9_unused_inputs lineScore (stats1 stats2 : Stats.PlayerStatsSummary) :
  Stats.recentAverage stats1 = Stats.recentAverage stats2 ->
  Stats.last5Games stats1 = Stats.last5Games stats2 ->
  Stats.consistency stats1 = Stats.consistency stats2 ->
  Stats.trend stats1 = Stats.trend stats2 ->
  analyzeProjection toFixed1 toString lineScore stats1
  = analyzeProjection toFixed1 toString lineScore stats2
  /\ forall stdDevOf : list number -> number,
       analyzeProjectionWith toFixed1 toString stdDevOf lineScore stats1
       = analyzeProjection toFixed1 toString lineScore stats1.
Proof.
  intros Havg Hl5 Hc Ht. split.
  - unfold analyzeProjection, analyzeProjectionWith.
    rewrite Havg, Hl5, Hc, Ht. reflexivity.
  - intros stdDevOf. reflexivity.
Qed.

(** *** The hit-rate branch *)

(** C10: when max (gamesOver, gamesUnder) / length (last5Games) >= 0.8 the two
    counts differ, so the choice [gamesOver > gamesUnder ? over : under] of
    the hit-rate branch never sees a tie: the recommendation is the side
    with strictly more games.  The length of the array is below 2^53, as
    the length of every array is. *)
Theorem C10_hit_rate_has_majority lineScore recentAverage last5Games :
  last5Games <> [] ->
  (Z.of_nat (List.length last5Games) < 2 ^ 53)%Z ->
  (hitRate lineScore last5Games >=? JS.lit_0_8) = true ->
  let over_n := countIf (fun g => g >? lineScore) last5Games in
  let under_n := countIf (fun g => g <? lineScore) last5Games in
  over_n <> under_n
  /\ (gamesOver lineScore last5Games =? gamesUnder lineScore last5Games) = false
  /\ ((Math_abs (percentDifference lineScore recentAverage) >? #15) = false ->
      (Math_abs (percentDifference lineScore recentAverage) >? #8) = false ->
      (baseRecommendation toFixed1 toString lineScore recentAverage last5Games = over
       /\ (under_n < over_n)%nat)
      \/ (baseRecommendation toFixed1 toString lineScore recentAverage last5Games
          = under
          /\ (over_n < under_n)%nat)).
Proof.
  intros Hne Hlen Hrate. cbv zeta. rewrite !countIf_filter.
  pose proof (over_under_le_length lineScore last5Games) as Hsum.
  revert Hrate.
  unfold baseRecommendation, determineRecommendation, hitRate, gamesOver, gamesUnder.
  cbv zeta.
  set (a := List.length (filter (fun val => val >? lineScore) last5Games)) in *.
  set (b := List.length (filter (fun val => val <? lineScore) last5Games)) in *.
  rewrite ofNat_Math_max, ofNat_gtb, ofNat_strict_eqb by lia.
  intros Hrate.
  assert (Hdiff : a <> b).
  { intros Heq. rewrite <- Heq, Nat.max_id in Hrate.
    rewrite ratio_at_most_half_below_0_8 in Hrate; [discriminate Hrate| |exact Hlen|lia].
    destruct last5Games; [contradiction|simpl; lia]. }
  split; [exact Hdiff|]. split; [apply Nat.eqb_neq; exact Hdiff|].
  intros H15 H8. rewrite H15, H8, Hrate. cbn [fst].
  destruct (Nat.ltb_spec b a) as [Hlt | Hge].
  - left. split; [reflexivity|exact Hlt].
  - right. split; [reflexivity|lia].
Qed.

End AnalyzerProperties.

(** ** The specification's examples, evaluated *)

Example example1_result :
  let result := analyzeProjection render_25_0 render_20 (ofZ 20) example1 in
  Analysis.recommendation result = over
  /\ Analysis.confidenceScore result = ofZ 90
  /\ Analysis.reasoning result
     = ("Player's recent average (25.0) is 25.0% above the line (20). "
        ++ "Player shows high consistency. Player is trending upward.")%string.
Proof. vm_compute. repeat split; reflexivity. Qed.

Example example2_result :
  let result := analyzeProjection render_22_0 render_20 (ofZ 20) example2 in
  gamesOver (ofZ 20) (Stats.last5Games example2) = ofZ 2
  /\ gamesUnder (ofZ 20) (Stats.last5Games example2) = ofZ 1
  /\ Analysis.recommendation result = skip
  /\ Analysis.confidenceScore result = ofZ 30.
Proof. vm_compute. repeat split; reflexivity. Qed.

Example example3_result :
  analyzeProjection render_22_0 render_20 (ofZ 10) example3
  = {| Analysis.recommendation := skip;
       Analysis.confidenceScore := ofZ 0;
       Analysis.reasoning := "Insufficient data available for analysis";
       Analysis.recentAverage := None;
       Analysis.gamesAnalyzed := 0 |}.
Proof. reflexivity. Qed.

Example example4_result :
  let result := analyzeProjection render_22_0 render_20 (ofZ 20) example4 in
  baseConfidence render_22_0 render_20 (ofZ 20) (ofZ 22) (Stats.last5Games example4)
  = ofZ 55
  /\ Analysis.recommendation result = skip
  /\ Analysis.confidenceScore result = ofZ 30
  /\ Analysis.reasoning result
     = ("Player's recent average (22.0) is moderately above the line (20). "
        ++ "Player shows high variance in performance. "
        ++ "Caution: Player is trending downward. "
        ++ "Low confidence - recommend skipping this pick.")%string.
Proof. vm_compute. repeat split; reflexivity. Qed.

(** ** The properties at concrete inputs *)

Lemma C1_insufficient_data_witness :
  (Stats.recentAverage exampleNoAverage = None
   \/ Stats.last5Games exampleNoAverage = [])
  /\ Stats.last5Games exampleNoAverage <> []
  /\ Analysis.gamesAnalyzed
       (analyzeProjection render_25_0 render_20 (ofZ 20) exampleNoAverage) = 0%nat.
Proof.
  split; [left; reflexivity|]. split; [discriminate|].
  rewrite (C1_insufficient_data render_25_0 render_20 (ofZ 20) exampleNoAverage);
    [reflexivity | left; reflexivity].
Defined.

Lemma C4_confidence_formula_witness :
  exists bz : Z,
    baseConfidence render_22_0 render_20 (ofZ 20) (ofZ 21) (Stats.last5Games example2)
    = ofZ bz
    /\ In (baseRecommendation render_22_0 render_20 (ofZ 20) (ofZ 21)
             (Stats.last5Games example2), bz) baseOutcomes
    /\ Analysis.confidenceScore
         (analyzeProjection render_22_0 render_20 (ofZ 20) example2)
       = ofZ (clamp (bz + consistencyAdjustment medium
                     + trendAdjustment stable
                         (baseRecommendation render_22_0 render_20 (ofZ 20) (ofZ 21)
                            (Stats.last5Games example2))) 0 100)
    /\ (baseRecommendation render_22_0 render_20 (ofZ 20) (ofZ 21)
          (Stats.last5Games example2) = skip ->
        Analysis.confidenceScore
          (analyzeProjection render_22_0 render_20 (ofZ 20) example2)
        = ofZ (clamp (30 + consistencyAdjustment medium) 0 100)).
Proof.
  apply (C4_confidence_formula render_22_0 render_20 (ofZ 20) example2
           (recentAverage := ofZ 21)).
  - reflexivity.
  - discriminate.
Defined.

Lemma C5_forced_skip_keeps_score_witness :
  computedConfidence render_22_0 render_20 (ofZ 20) (ofZ 22)
    (Stats.last5Games example4) low decreasing = ofZ 30
  /\ computedRecommendation render_22_0 render_20 (ofZ 20) (ofZ 22)
       (Stats.last5Games example4) low decreasing = over
  /\ Analysis.recommendation
       (analyzeProjection render_22_0 render_20 (ofZ 20) example4) = skip
  /\ Analysis.confidenceScore
       (analyzeProjection render_22_0 render_20 (ofZ 20) example4)
     = computedConfidence render_22_0 render_20 (ofZ 20) (ofZ 22)
         (Stats.last5Games example4) low decreasing.
Proof.
  split; [vm_compute; reflexivity|]. split; [vm_compute; reflexivity|].
  apply (C5_forced_skip_keeps_score render_22_0 render_20 (ofZ 20) example4
           (recentAverage := ofZ 22)).
  - reflexivity.
  - discriminate.
  - vm_compute; reflexivity.
  - vm_compute; discriminate.
Defined.

Lemma C6_zero_line_witness :
  let playerStats := stats (Some (ofZ 3)) [ofZ 1] low decreasing in
  JS.isInfinite (percentDifference (ofZ 0) (ofZ 3)) = true
  /\ JS.gtb (Math_abs (percentDifference (ofZ 0) (ofZ 3))) (ofZ 15) = true
  /\ baseConfidence render_22_0 render_20 (ofZ 0) (ofZ 3) [ofZ 1] = ofZ 70
  /\ baseRecommendation render_22_0 render_20 (ofZ 0) (ofZ 3) [ofZ 1]
     = (if JS.gtb (ofZ 3) (ofZ 0) then over else under)
  /\ (JS.gtb (ofZ 3) (ofZ 0) = true \/ JS.ltb (ofZ 3) (ofZ 0) = true)
  /\ Analysis.recommendation
       (analyzeProjection render_22_0 render_20 (ofZ 0) playerStats)
     = (if JS.gtb (ofZ 3) (ofZ 0) then over else under).
Proof.
  cbv zeta.
  apply (C6_zero_line render_22_0 render_20 (ofZ 0)
           (stats (Some (ofZ 3)) [ofZ 1] low decreasing) (recentAverage := ofZ 3)).
  - vm_compute; reflexivity.
  - reflexivity.
  - reflexivity.
  - vm_compute; reflexivity.
  - discriminate.
Defined.

(** C6 as the specification states it asks only for an average that is not
    equal to 0.  NaN is such a number, and with it the percent difference
    is NaN: no branch on the percent difference is taken, and with one game
    above the line the hit-rate branch gives a base confidence of 60. *)
Lemma C6_counterexample_NaN_average :
  ~ (forall (lineScore recentAverage : number) (last5Games : list number),
       JS.strict_eqb lineScore (ofZ 0) = true ->
       JS.strict_eqb recentAverage (ofZ 0) = false ->
       last5Games <> [] ->
       JS.isInfinite (percentDifference lineScore recentAverage) = true
       /\ JS.gtb (Math_abs (percentDifference lineScore recentAverage)) (ofZ 15) = true
       /\ baseConfidence render_22_0 render_20 lineScore recentAverage last5Games
          = ofZ 70).
Proof.
  intros H.
  destruct (H (ofZ 0) JS.NaN [ofZ 1]) as [Hinf _].
  - vm_compute; reflexivity.
  - vm_compute; reflexivity.
  - discriminate.
  - vm_compute in Hinf. discriminate Hinf.
Qed.

Lemma C8_non_skip_at_least_45_witness :
  Analysis.recommendation (analyzeProjection render_25_0 render_20 (ofZ 20) example1)
  = over
  /\ exists n : Z,
       45 <= n <= 100
       /\ Analysis.confidenceScore
            (analyzeProjection render_25_0 render_20 (ofZ 20) example1) = ofZ n
       /\ JS.geb (Analysis.confidenceScore
                    (analyzeProjection render_25_0 render_20 (ofZ 20) example1))
                 (ofZ 45) = true.
Proof.
  split; [vm_compute; reflexivity|].
  apply (C8_non_skip_at_least_45 render_25_0 render_20 (ofZ 20) example1).
  left. vm_compute; reflexivity.
Defined.

Lemma C9_unused_inputs_witness :
  Stats.last10Games example1 <> Stats.last10Games example1Renamed
  /\ Stats.playerName example1 <> Stats.playerName example1Renamed
  /\ analyzeProjection render_25_0 render_20 (ofZ 20) example1
     = analyzeProjection render_25_0 render_20 (ofZ 20) example1Renamed
  /\ forall stdDevOf : list number -> number,
       analyzeProjectionWith render_25_0 render_20 stdDevOf (ofZ 20) example1
       = analyzeProjection render_25_0 render_20 (ofZ 20) example1.
Proof.
  split; [vm_compute; discriminate|]. split; [vm_compute; discriminate|].
  apply (C9_unused_inputs render_25_0 render_20 (ofZ 20) example1 example1Renamed);
    reflexivity.
Defined.

Lemma C10_hit_rate_has_majority_witness :
  hitRate (ofZ 20) exampleHitRate = JS.lit_0_8
  /\ countIf (fun g => JS.gtb g (ofZ 20)) exampleHitRate = 4%nat
  /\ countIf (fun g => JS.ltb g (ofZ 20)) exampleHitRate = 1%nat
  /\ countIf (fun g => JS.gtb g (ofZ 20)) exampleHitRate
     <> countIf (fun g => JS.ltb g (ofZ 20)) exampleHitRate
  /\ JS.strict_eqb (gamesOver (ofZ 20) exampleHitRate)
       (gamesUnder (ofZ 20) exampleHitRate) = false
  /\ (JS.gtb (Math_abs (percentDifference (ofZ 20) (ofZ 21))) (ofZ 15) = false ->
      JS.gtb (Math_abs (percentDifference (ofZ 20) (ofZ 21))) (ofZ 8) = false ->
      (baseRecommendation render_22_0 render_20 (ofZ 20) (ofZ 21) exampleHitRate = over
       /\ (countIf (fun g => JS.ltb g (ofZ 20)) exampleHitRate
           < countIf (fun g => JS.gtb g (ofZ 20)) exampleHitRate)%nat)
      \/ (baseRecommendation render_22_0 render_20 (ofZ 20) (ofZ 21) exampleHitRate
          = under
          /\ (countIf (fun g => JS.gtb g (ofZ 20)) exampleHitRate
              < countIf (fun g => JS.ltb g (ofZ 20)) exampleHitRate)%nat)).
Proof.
  split; [vm_compute; reflexivity|].
  split; [vm_compute; reflexivity|].
  split; [vm_compute; reflexivity|].
  apply (C10_hit_rate_has_majority render_22_0 render_20 (ofZ 20) (ofZ 21)
           (last5Games := exampleHitRate)).
  - discriminate.
  - vm_compute; reflexivity.
  - vm_compute; reflexivity.
Defined.

(** ** Further properties of the analyzer *)

(** *** Trimming *)

Lemma append_assoc (a b c : string) : ((a ++ b) ++ c = a ++ (b ++ c))%string.
Proof. induction a as [|x a IH]; simpl; [reflexivity|]. rewrite IH. reflexivity. Qed.

Lemma trimStart_ink (s : string) : startsWithInk s -> JS.trimStart s = s.
Proof. intros [c [rest [-> Hc]]]. simpl. rewrite Hc. reflexivity. Qed.

Lemma trimEnd_ink (a : string) (c : ascii) :
  JS.isWhiteSpace c = false ->
  JS.trimEnd (a ++ String c EmptyString) = (a ++ String c EmptyString)%string.
Proof.
  intros Hc. induction a as [|x a IH].
  - simpl. rewrite Hc. reflexivity.
  - cbn [append JS.trimEnd]. rewrite IH.
    destruct a; reflexivity.
Qed.

Lemma trimEnd_ink_space (a : string) (c : ascii) :
  JS.isWhiteSpace c = false ->
  JS.trimEnd (a ++ String c " ") = (a ++ String c EmptyString)%string.
Proof.
  intros Hc. induction a as [|x a IH].
  - simpl. rewrite Hc. reflexivity.
  - cbn [append JS.trimEnd]. rewrite IH.
    destruct a; reflexivity.
Qed.

Lemma startsWithInk_app (a b : string) : startsWithInk a -> startsWithInk (a ++ b).
Proof. intros [c [rest [-> Hc]]]. exists c, (rest ++ b)%string. split; [reflexivity|exact Hc]. Qed.

Lemma endsWith_refl (s : string) : endsWith s s.
Proof. exists EmptyString. reflexivity. Qed.

Lemma endsWith_cons (c : ascii) (s suffix : string) :
  endsWith s suffix -> endsWith (String c s) suffix.
Proof. intros [before ->]. exists (String c before). reflexivity. Qed.

Lemma endsWith_app (a b suffix : string) :
  endsWith b suffix -> endsWith (a ++ b) suffix.
Proof.
  intros [before ->]. exists (a ++ before)%string. symmetry. apply append_assoc.
Qed.

Section Reasoning.

Variable toFixed1 : number -> string.
Variable toString : number -> string.

Local Open Scope js_scope.

Lemma startsWith_P_or_L_app (s clause : string) :
  (exists rest, s = String "P" rest \/ s = String "L" rest) ->
  exists rest, (s ++ clause)%string = String "P" rest
               \/ (s ++ clause)%string = String "L" rest.
Proof.
  intros [rest [-> | ->]]; exists (rest ++ clause)%string; [left|right]; reflexivity.
Qed.

Lemma determineRecommendation_reasoning_shape lineScore recentAverage last5Games :
  let reasoning :=
    snd (determineRecommendation toFixed1 toString lineScore recentAverage
           last5Games) in
  endsWith reasoning ". "
  /\ exists rest, reasoning = String "P" rest \/ reasoning = String "L" rest.
Proof.
  cbv zeta. unfold determineRecommendation. cbv zeta.
  repeat match goal with
         | |- context [if ?b then _ else _] => destruct b
         end;
    cbn [snd];
    (split;
     [ repeat (apply endsWith_refl || apply endsWith_app || apply endsWith_cons)
     | eexists; cbn [append]; (left; reflexivity) || (right; reflexivity) ]).
Qed.

Lemma adjustForConsistency_reasoning_shape (c : Consistency) (s : string) :
  (endsWith s ". "
   /\ exists rest, s = String "P" rest \/ s = String "L" rest) ->
  let reasoning := snd (adjustForConsistency c s) in
  endsWith reasoning ". "
  /\ exists rest, reasoning = String "P" rest \/ reasoning = String "L" rest.
Proof.
  intros [Hend Hstart]. cbv zeta.
  destruct c; cbn [adjustForConsistency snd];
    (split;
     [ assumption
       || (repeat (apply endsWith_refl || apply endsWith_app || apply endsWith_cons))
     | assumption || (apply startsWith_P_or_L_app; assumption) ]).
Qed.

Lemma adjustForTrend_reasoning_shape (t : Trend) (r : Recommendation) (a : number)
    (s : string) :
  (endsWith s ". "
   /\ exists rest, s = String "P" rest \/ s = String "L" rest) ->
  let reasoning := snd (adjustForTrend t r a s) in
  endsWith reasoning ". "
  /\ exists rest, reasoning = String "P" rest \/ reasoning = String "L" rest.
Proof.
  intros [Hend Hstart]. cbv zeta.
  destruct t, r; cbn [adjustForTrend Trend_eqb Recommendation_eqb andb snd];
    (split;
     [ assumption
       || (repeat (apply endsWith_refl || apply endsWith_app || apply endsWith_cons))
     | assumption || (apply startsWith_P_or_L_app; assumption) ]).
Qed.

Lemma computedReasoning_shape lineScore recentAverage last5Games c t :
  let reasoning := computedReasoning toFixed1 toString lineScore recentAverage
                     last5Games c t in
  endsWith reasoning ". "
  /\ exists rest, reasoning = String "P" rest \/ reasoning = String "L" rest.
Proof.
  cbv zeta.
  pose proof (determineRecommendation_reasoning_shape lineScore recentAverage
                last5Games) as Hbase.
  cbv zeta in Hbase.
  unfold computedReasoning, scoreProjection.
  destruct (determineRecommendation _ _ _ _ _) as [[r b] s]. cbn [snd] in Hbase.
  pose proof (adjustForConsistency_reasoning_shape c Hbase) as Hcons.
  cbv zeta in Hcons.
  destruct (adjustForConsistency c s) as [a s1]. cbn [snd] in Hcons.
  pose proof (adjustForTrend_reasoning_shape t r a Hcons) as Htrend.
  cbv zeta in Htrend.
  destruct (adjustForTrend t r a s1) as [a2 s2]. exact Htrend.
Qed.

(** The reasoning of a call that passes the guard. *)
Lemma analyzeProjection_reasoning lineScore playerStats recentAverage :
  Stats.recentAverage playerStats = Some recentAverage ->
  Stats.last5Games playerStats <> [] ->
  let computed := computedReasoning toFixed1 toString lineScore recentAverage
                    (Stats.last5Games playerStats) (Stats.consistency playerStats)
                    (Stats.trend playerStats) in
  let forced :=
    (computedConfidence toFixed1 toString lineScore recentAverage
       (Stats.last5Games playerStats) (Stats.consistency playerStats)
       (Stats.trend playerStats) <? #45)
    && negb (Recommendation_eqb
               (computedRecommendation toFixed1 toString lineScore recentAverage
                  (Stats.last5Games playerStats) (Stats.consistency playerStats)
                  (Stats.trend playerStats)) skip) in
  Analysis.reasoning (analyzeProjection toFixed1 toString lineScore playerStats)
  = JS.trim (if forced
             then computed ++ "Low confidence - recommend skipping this pick."
             else computed)%string.
Proof.
  intros Havg Hl5. cbv zeta.
  unfold analyzeProjection, analyzeProjectionWith, computedReasoning,
    computedConfidence, computedRecommendation.
  rewrite Havg.
  destruct (Stats.last5Games playerStats) as [|g gs] eqn:E; [contradiction|].
  cbn [List.length Nat.eqb].
  destruct (scoreProjection _ _ _ _ _ _ _) as [[r c] s]. cbn [fst snd].
  destruct ((c <? #45) && negb (Recommendation_eqb r skip))%bool; reflexivity.
Qed.

(** X7: [trim] removes exactly the space that ends the last clause: when
    the skip is forced the reasoning is the collected clauses followed by
    the low-confidence clause, otherwise it is the collected clauses without
    their final space; in both cases it ends with a full stop. *)
Theorem X7_reasoning_is_trimmed_of_one_space lineScore playerStats recentAverage :
  Stats.recentAverage playerStats = Some recentAverage ->
  Stats.last5Games playerStats <> [] ->
  let result := analyzeProjection toFixed1 toString lineScore playerStats in
  let computed := computedReasoning toFixed1 toString lineScore recentAverage
                    (Stats.last5Games playerStats) (Stats.consistency playerStats)
                    (Stats.trend playerStats) in
  let forced :=
    (computedConfidence toFixed1 toString lineScore recentAverage
       (Stats.last5Games playerStats) (Stats.consistency playerStats)
       (Stats.trend playerStats) <? #45)
    && negb (Recommendation_eqb
               (computedRecommendation toFixed1 toString lineScore recentAverage
                  (Stats.last5Games playerStats) (Stats.consistency playerStats)
                  (Stats.trend playerStats)) skip) in
  (forced = true ->
   Analysis.reasoning result
   = (computed ++ "Low confidence - recommend skipping this pick.")%string)
  /\ (forced = false ->
      (Analysis.reasoning result ++ " ")%string = computed)
  /\ endsWith (Analysis.reasoning result) ".".
Proof.
  intros Havg Hl5. cbv zeta.
  rewrite (analyzeProjection_reasoning lineScore playerStats Havg Hl5). cbv zeta.
  destruct (computedReasoning_shape lineScore recentAverage
              (Stats.last5Games playerStats) (Stats.consistency playerStats)
              (Stats.trend playerStats)) as [[before Hend] Hstart].
  cbv zeta in Hend, Hstart.
  assert (Hink : forall clause,
            startsWithInk
              (computedReasoning toFixed1 toString lineScore recentAverage
                 (Stats.last5Games playerStats) (Stats.consistency playerStats)
                 (Stats.trend playerStats) ++ clause)).
  { intros clause. apply startsWithInk_app.
    destruct Hstart as [rest [-> | ->]]; eexists _, rest; split; reflexivity. }
  match goal with |- context [if ?b then _ else _] => destruct b end.
  - assert (Htrim :
      JS.trim (computedReasoning toFixed1 toString lineScore recentAverage
                 (Stats.last5Games playerStats) (Stats.consistency playerStats)
                 (Stats.trend playerStats)
               ++ "Low confidence - recommend skipping this pick.")
      = (computedReasoning toFixed1 toString lineScore recentAverage
           (Stats.last5Games playerStats) (Stats.consistency playerStats)
           (Stats.trend playerStats)
         ++ "Low confidence - recommend skipping this pick.")%string).
    { unfold JS.trim. rewrite trimStart_ink by apply Hink.
      change "Low confidence - recommend skipping this pick."%string
        with ("Low confidence - recommend skipping this pick" ++ ".")%string.
      rewrite <- append_assoc. apply trimEnd_ink. reflexivity. }
    rewrite Htrim. split; [reflexivity|]. split; [discriminate|].
    apply endsWith_app.
    repeat (apply endsWith_refl || apply endsWith_cons).
  - assert (Htrim :
      JS.trim (computedReasoning toFixed1 toString lineScore recentAverage
                 (Stats.last5Games playerStats) (Stats.consistency playerStats)
                 (Stats.trend playerStats))
      = (before ++ ".")%string).
    { unfold JS.trim. rewrite trimStart_ink.
      - rewrite Hend. apply trimEnd_ink_space. reflexivity.
      - specialize (Hink EmptyString).
        replace (computedReasoning toFixed1 toString lineScore recentAverage
                   (Stats.last5Games playerStats) (Stats.consistency playerStats)
                   (Stats.trend playerStats))
          with (computedReasoning toFixed1 toString lineScore recentAverage
                  (Stats.last5Games playerStats) (Stats.consistency playerStats)
                  (Stats.trend playerStats) ++ "")%string.
        + exact Hink.
        + clear. generalize (computedReasoning toFixed1 toString lineScore
                               recentAverage (Stats.last5Games playerStats)
                               (Stats.consistency playerStats)
                               (Stats.trend playerStats)).
          intros s. induction s as [|x s IH]; simpl; [reflexivity|].
          rewrite IH. reflexivity. }
    rewrite Htrim. split; [discriminate|]. split.
    + intros _. rewrite Hend. rewrite append_assoc. reflexivity.
    + apply endsWith_app. apply endsWith_refl.
Qed.

Lemma trimEnd_head (c : ascii) (rest : string) :
  JS.isWhiteSpace c = false ->
  exists rest', JS.trimEnd (String c rest) = String c rest'.
Proof.
  intros Hc. cbn [JS.trimEnd]. destruct (JS.trimEnd rest) as [|x t].
  - rewrite Hc. eexists. reflexivity.
  - eexists. reflexivity.
Qed.

Lemma analyzeProjection_reasoning_start lineScore playerStats recentAverage :
  Stats.recentAverage playerStats = Some recentAverage ->
  Stats.last5Games playerStats <> [] ->
  exists rest,
    Analysis.reasoning (analyzeProjection toFixed1 toString lineScore playerStats)
    = String "P" rest
    \/ Analysis.reasoning (analyzeProjection toFixed1 toString lineScore playerStats)
       = String "L" rest.
Proof.
  intros Havg Hl5.
  rewrite (analyzeProjection_reasoning lineScore playerStats Havg Hl5). cbv zeta.
  destruct (computedReasoning_shape lineScore recentAverage
              (Stats.last5Games playerStats) (Stats.consistency playerStats)
              (Stats.trend playerStats)) as [_ Hstart].
  cbv zeta in Hstart.
  match goal with |- context [if ?b then _ else _] => destruct b end;
    [apply startsWith_P_or_L_app
       with (clause := "Low confidence - recommend skipping this pick."%string)
       in Hstart|];
    destruct Hstart as [rest [-> | ->]]; unfold JS.trim; cbn [JS.trimStart];
    match goal with
    | |- context [JS.isWhiteSpace ?c] =>
        change (JS.isWhiteSpace c) with false; cbv iota;
        destruct (@trimEnd_head c rest eq_refl) as [rest' ->]
    end; exists rest'; [left|right|left|right]; reflexivity.
Qed.

Lemma analyzeProjection_fields lineScore playerStats recentAverage :
  Stats.recentAverage playerStats = Some recentAverage ->
  Stats.last5Games playerStats <> [] ->
  Analysis.recentAverage (analyzeProjection toFixed1 toString lineScore playerStats)
  = Some (toFixed1 recentAverage)
  /\ Analysis.gamesAnalyzed
       (analyzeProjection toFixed1 toString lineScore playerStats)
     = List.length (Stats.last5Games playerStats).
Proof.
  intros Havg Hl5.
  unfold analyzeProjection, analyzeProjectionWith.
  rewrite Havg.
  destruct (Stats.last5Games playerStats) as [|g gs] eqn:E; [contradiction|].
  cbn [List.length Nat.eqb].
  destruct (scoreProjection _ _ _ _ _ _ _) as [[r c] s].
  destruct ((c <? #45) && negb (Recommendation_eqb r skip))%bool; split; reflexivity.
Qed.

End Reasoning.

(** *** The scores that occur *)

Lemma baseOutcomes_sum (r : Recommendation) (bz : Z) (c : Consistency) (t : Trend) :
  In (r, bz) baseOutcomes ->
  let n := bz + consistencyAdjustment c + trendAdjustment t r in
  clamp n 0 100 = n /\ 15 <= n <= 90 /\ n mod 5 = 0
  /\ (r = skip -> n <= 40).
Proof.
  intros Hin. simpl in Hin.
  repeat (destruct Hin as [Hin | Hin]; [injection Hin as <- <- | ]);
    try contradiction; destruct c, t; vm_compute; repeat split;
    congruence.
Qed.

Lemma ofZ_ltb (a b : Z) :
  0 <= a < 2 ^ 53 -> 0 <= b < 2 ^ 53 -> JS.ltb (ofZ a) (ofZ b) = (a <? b).
Proof.
  intros Ha Hb. unfold JS.ltb, SFltb. rewrite ofZ_compare by assumption.
  unfold Z.ltb. destruct (a ?= b); reflexivity.
Qed.

Lemma ofZ_geb (a b : Z) :
  0 <= a < 2 ^ 53 -> 0 <= b < 2 ^ 53 -> JS.geb (ofZ a) (ofZ b) = (b <=? a).
Proof.
  intros Ha Hb. unfold JS.geb, SFleb. rewrite ofZ_compare by assumption.
  unfold Z.leb. destruct (b ?= a); reflexivity.
Qed.

(** *** The direction of a recommendation *)

(** A percent difference above a positive threshold comes from a
    difference that is not zero: when it is not positive it is negative. *)
Lemma large_percent_difference_sign (lineScore recentAverage threshold : number) :
  threshold = ofZ 8 \/ threshold = ofZ 15 ->
  JS.gtb (Math_abs (percentDifference lineScore recentAverage)) threshold = true ->
  JS.gtb (difference lineScore recentAverage) (ofZ 0) = false ->
  JS.ltb (difference lineScore recentAverage) (ofZ 0) = true.
Proof.
  unfold percentDifference. generalize (difference lineScore recentAverage).
  intros d Hthr Hbig Hpos.
  destruct d as [s|s| |s m e].
  - exfalso.
    destruct lineScore as [sl|sl| |sl ml el], Hthr as [-> | ->];
      vm_compute in Hbig; discriminate Hbig.
  - destruct s; [reflexivity|discriminate Hpos].
  - exfalso. destruct Hthr as [-> | ->]; vm_compute in Hbig; discriminate Hbig.
  - destruct s; [reflexivity|discriminate Hpos].
Qed.

(** With a hit rate of at least 0.8 the games are not tied. *)
Lemma hit_rate_untied (lineScore : number) (last5Games : list number) :
  Z.of_nat (List.length last5Games) < 2 ^ 53 ->
  JS.geb (hitRate lineScore last5Games) JS.lit_0_8 = true ->
  JS.gtb (gamesOver lineScore last5Games) (gamesUnder lineScore last5Games) = false ->
  JS.gtb (gamesUnder lineScore last5Games) (gamesOver lineScore last5Games) = true.
Proof.
  intros Hlen.
  pose proof (over_under_le_length lineScore last5Games) as Hsum.
  unfold hitRate, gamesOver, gamesUnder.
  set (a := List.length (filter (fun val => JS.gtb val lineScore) last5Games)) in *.
  set (b := List.length (filter (fun val => JS.ltb val lineScore) last5Games)) in *.
  rewrite ofNat_Math_max, !ofNat_gtb by lia.
  intros Hrate Hle. apply Nat.ltb_ge in Hle. apply Nat.ltb_lt.
  destruct (Nat.eq_dec a b) as [Heq | Hne]; [exfalso|lia].
  rewrite <- Heq, Nat.max_id in Hrate.
  destruct last5Games as [|g gs].
  - vm_compute in Hrate. discriminate Hrate.
  - rewrite ratio_at_most_half_below_0_8 in Hrate;
      [discriminate Hrate|simpl; lia|exact Hlen|lia].
Qed.

Section AnalyzerFurther.

Variable toFixed1 : number -> string.
Variable toString : number -> string.

Local Open Scope js_scope.

Lemma unclamped_arithmetic (r : Recommendation) (bz : Z) (c : Consistency)
    (t : Trend) (s : string) :
  In (r, bz) baseOutcomes ->
  #bz + fst (adjustForTrend t r (fst (adjustForConsistency c s))
                            (snd (adjustForConsistency c s)))
  = #(bz + consistencyAdjustment c + trendAdjustment t r).
Proof.
  intros Hin. simpl in Hin.
  repeat (destruct Hin as [Hin | Hin]; [injection Hin as <- <- | ]);
    try contradiction; destruct c, t; vm_compute; reflexivity.
Qed.

Lemma unclampedConfidence_spec lineScore recentAverage last5Games c t :
  unclampedConfidence toFixed1 toString lineScore recentAverage last5Games c t
  = #(snd (specBase lineScore recentAverage last5Games)
      + consistencyAdjustment c
      + trendAdjustment t (fst (specBase lineScore recentAverage last5Games))).
Proof.
  pose proof (specBase_outcome toFixed1 toString lineScore recentAverage last5Games) as Hin.
  destruct (determineRecommendation_spec toFixed1 toString lineScore recentAverage
              last5Games) as [Hr Hb].
  revert Hr Hb.
  unfold unclampedConfidence, baseConfidence, baseRecommendation.
  destruct (determineRecommendation _ _ _ _ _) as [[r b] s]. cbn [fst snd].
  destruct (specBase lineScore recentAverage last5Games) as [r' bz].
  cbn [fst snd]. intros -> ->.
  rewrite <- (unclamped_arithmetic c t s Hin).
  destruct (adjustForConsistency c s) as [a s1]. cbn [fst snd].
  destruct (adjustForTrend t r' a s1) as [a2 s2]. reflexivity.
Qed.

(** X1: for an input that passes the guard the returned confidence score is
    the plain sum baseConfidence + confidenceAdjustment: the clamp to
    [0, 100] and [Math.round] never change it.  The sum is a multiple of 5
    between 15 and 90. *)
Theorem X1_clamp_never_active lineScore playerStats recentAverage :
  Stats.recentAverage playerStats = Some recentAverage ->
  Stats.last5Games playerStats <> [] ->
  let sum := unclampedConfidence toFixed1 toString lineScore recentAverage
               (Stats.last5Games playerStats) (Stats.consistency playerStats)
               (Stats.trend playerStats) in
  Analysis.confidenceScore
    (analyzeProjection toFixed1 toString lineScore playerStats) = sum
  /\ exists n : Z, sum = #n /\ (15 <= n <= 90)%Z /\ (n mod 5 = 0)%Z.
Proof.
  intros Havg Hl5. cbv zeta.
  destruct (analyzeProjection_outcome toFixed1 toString lineScore playerStats
              Havg Hl5) as [Hc _].
  rewrite Hc, unclampedConfidence_spec.
  pose proof (specBase_outcome toFixed1 toString lineScore recentAverage
                (Stats.last5Games playerStats)) as Hin.
  destruct (specBase lineScore recentAverage (Stats.last5Games playerStats))
    as [r bz]. cbn [fst snd].
  destruct (baseOutcomes_sum (Stats.consistency playerStats)
              (Stats.trend playerStats) Hin) as [Hclamp [Hrange [Hmod _]]].
  rewrite Hclamp. split; [reflexivity|].
  eexists. split; [reflexivity|]. split; assumption.
Qed.

Lemma analyzeProjection_score_cases lineScore playerStats :
  let result := analyzeProjection toFixed1 toString lineScore playerStats in
  exists n : Z,
    Analysis.confidenceScore result = #n
    /\ ((Analysis.recommendation result = skip /\ (0 <= n <= 40)%Z)
        \/ (Analysis.recommendation result <> skip /\ (45 <= n <= 90)%Z))
    /\ (Analysis.confidenceScore result <? #45)
       = Recommendation_eqb (Analysis.recommendation result) skip.
Proof.
  cbv zeta.
  assert (Hguard : forall H : Stats.recentAverage playerStats = None
                                \/ Stats.last5Games playerStats = [],
           exists n : Z,
             Analysis.confidenceScore
               (analyzeProjection toFixed1 toString lineScore playerStats) = #n
             /\ ((Analysis.recommendation
                    (analyzeProjection toFixed1 toString lineScore playerStats) = skip
                  /\ (0 <= n <= 40)%Z)
                 \/ (Analysis.recommendation
                       (analyzeProjection toFixed1 toString lineScore playerStats)
                     <> skip /\ (45 <= n <= 90)%Z))
             /\ (Analysis.confidenceScore
                   (analyzeProjection toFixed1 toString lineScore playerStats) <? #45)
                = Recommendation_eqb
                    (Analysis.recommendation
                       (analyzeProjection toFixed1 toString lineScore playerStats))
                    skip).
  { intros H. rewrite (analyzeProjection_guard toFixed1 toString lineScore
                         playerStats H).
    exists 0%Z. split; [reflexivity|]. split; [left; split; [reflexivity|lia]|].
    reflexivity. }
  destruct (Stats.recentAverage playerStats) as [recentAverage|] eqn:Havg;
    [|apply Hguard; left; reflexivity].
  destruct (Stats.last5Games playerStats) as [|g gs] eqn:Hl5;
    [apply Hguard; right; reflexivity|].
  clear Hguard.
  assert (Hne : Stats.last5Games playerStats <> []) by (rewrite Hl5; discriminate).
  destruct (analyzeProjection_outcome toFixed1 toString lineScore playerStats
              Havg Hne) as [Hc Hr].
  rewrite Hl5 in Hc, Hr. rewrite Hc, Hr.
  pose proof (specBase_outcome toFixed1 toString lineScore recentAverage (g :: gs)) as Hin.
  destruct (specBase lineScore recentAverage (g :: gs)) as [r bz].
  cbn [fst snd] in *.
  destruct (baseOutcomes_sum (Stats.consistency playerStats)
              (Stats.trend playerStats) Hin) as [Hclamp [Hrange [Hmod Hskip]]].
  rewrite Hclamp.
  set (n := (bz + consistencyAdjustment (Stats.consistency playerStats)
             + trendAdjustment (Stats.trend playerStats) r)%Z) in *.
  exists n. split; [reflexivity|].
  rewrite ofZ_ltb by lia.
  destruct (Z.ltb_spec n 45) as [Hlt | Hge].
  - split; [|reflexivity]. left. split; [reflexivity|].
    assert (n mod 5 = 0 -> n < 45 -> n <= 40)%Z.
    { intros Hm _. pose proof (Z.div_mod n 5). lia. }
    lia.
  - destruct r.
    + split; [|reflexivity]. right. split; [discriminate|lia].
    + split; [|reflexivity]. right. split; [discriminate|lia].
    + specialize (Hskip eq_refl). lia.
Qed.

(** X2: the recommendation is [skip] exactly when the confidence score is
    below 45: a skip comes with a score between 0 and 40, an over or under
    with a score between 45 and 90. *)
Theorem X2_skip_iff_below_45 lineScore playerStats :
  let result := analyzeProjection toFixed1 toString lineScore playerStats in
  exists n : Z,
    Analysis.confidenceScore result = #n
    /\ ((Analysis.recommendation result = skip /\ (0 <= n <= 40)%Z)
        \/ (Analysis.recommendation result <> skip /\ (45 <= n <= 90)%Z))
    /\ (Analysis.confidenceScore result <? #45)
       = Recommendation_eqb (Analysis.recommendation result) skip.
Proof. exact (analyzeProjection_score_cases lineScore playerStats). Qed.

(** X3: [getConfidenceColor] shows the score of every skip in red, and a
    score shown in green belongs to an over or under of at least 70. *)
Theorem X3_skip_is_shown_red lineScore playerStats :
  let result := analyzeProjection toFixed1 toString lineScore playerStats in
  (Analysis.recommendation result = skip ->
   getConfidenceColor (Analysis.confidenceScore result) = "text-red-500"%string)
  /\ (getConfidenceColor (Analysis.confidenceScore result) = "text-green-500"%string ->
      Analysis.recommendation result <> skip
      /\ (Analysis.confidenceScore result >=? #70) = true).
Proof.
  cbv zeta.
  destruct (analyzeProjection_score_cases lineScore playerStats)
    as [n [Hn [[[Hr Hrange] | [Hr Hrange]] _]]]; rewrite Hn; unfold getConfidenceColor;
    rewrite !ofZ_geb by lia.
  - split.
    + intros _. destruct (Z.leb_spec 70 n); [lia|].
      destruct (Z.leb_spec 50 n); [lia|]. reflexivity.
    + destruct (Z.leb_spec 70 n); [lia|].
      destruct (Z.leb_spec 50 n); [lia|]. discriminate.
  - split; [intros H; contradiction|].
    destruct (Z.leb_spec 70 n); [intros _; split; [assumption|reflexivity]|].
    destruct (Z.leb_spec 50 n); discriminate.
Qed.

Lemma analyzeProjection_score_sum lineScore playerStats recentAverage :
  Stats.recentAverage playerStats = Some recentAverage ->
  Stats.last5Games playerStats <> [] ->
  let base := specBase lineScore recentAverage (Stats.last5Games playerStats) in
  Analysis.confidenceScore
    (analyzeProjection toFixed1 toString lineScore playerStats)
  = #(snd base + consistencyAdjustment (Stats.consistency playerStats)
      + trendAdjustment (Stats.trend playerStats) (fst base)).
Proof.
  intros Havg Hl5. cbv zeta.
  destruct (analyzeProjection_outcome toFixed1 toString lineScore playerStats
              Havg Hl5) as [Hc _].
  rewrite Hc.
  pose proof (specBase_outcome toFixed1 toString lineScore recentAverage
                (Stats.last5Games playerStats)) as Hin.
  destruct (specBase lineScore recentAverage (Stats.last5Games playerStats))
    as [r bz]. cbn [fst snd].
  destruct (baseOutcomes_sum (Stats.consistency playerStats)
              (Stats.trend playerStats) Hin) as [Hclamp _].
  rewrite Hclamp. reflexivity.
Qed.

(** X4: with the other fields kept, high consistency scores exactly 10
    above medium and low consistency exactly 15 below. *)
Theorem X4_consistency_steps lineScore playerStats recentAverage :
  Stats.recentAverage playerStats = Some recentAverage ->
  Stats.last5Games playerStats <> [] ->
  let score c := Analysis.confidenceScore
                   (analyzeProjection toFixed1 toString lineScore
                      (withConsistency c playerStats)) in
  exists n : Z,
    score medium = #n /\ score high = #(n + 10) /\ score low = #(n - 15).
Proof.
  intros Havg Hl5. cbv zeta.
  exists (snd (specBase lineScore recentAverage (Stats.last5Games playerStats))
          + trendAdjustment (Stats.trend playerStats)
              (fst (specBase lineScore recentAverage (Stats.last5Games playerStats))))%Z.
  repeat split;
    rewrite (analyzeProjection_score_sum lineScore (withConsistency _ playerStats)
               (recentAverage := recentAverage)) by assumption;
    cbn [withConsistency Stats.last5Games Stats.consistency Stats.trend
         consistencyAdjustment]; f_equal; lia.
Qed.

(** X5: an [over] is returned only when the average is above the line
    (difference > 0) or more games are over than under, and an [under] only
    when the difference is negative or more games are under than over. *)
Theorem X5_direction_follows_evidence lineScore playerStats recentAverage :
  Stats.recentAverage playerStats = Some recentAverage ->
  (Z.of_nat (List.length (Stats.last5Games playerStats)) < 2 ^ 53)%Z ->
  let result := analyzeProjection toFixed1 toString lineScore playerStats in
  let last5Games := Stats.last5Games playerStats in
  (Analysis.recommendation result = over ->
   (difference lineScore recentAverage >? #0) = true
   \/ (gamesOver lineScore last5Games >? gamesUnder lineScore last5Games) = true)
  /\ (Analysis.recommendation result = under ->
      (difference lineScore recentAverage <? #0) = true
      \/ (gamesUnder lineScore last5Games >? gamesOver lineScore last5Games) = true).
Proof.
  intros Havg Hlen. cbv zeta.
  destruct (Stats.last5Games playerStats) as [|g gs] eqn:Hl5.
  { rewrite (analyzeProjection_guard toFixed1 toString lineScore playerStats
               (or_intror Hl5)).
    split; intros H; discriminate H. }
  assert (Hne : Stats.last5Games playerStats <> []) by (rewrite Hl5; discriminate).
  destruct (analyzeProjection_outcome toFixed1 toString lineScore playerStats
              Havg Hne) as [_ Hr].
  rewrite Hl5 in Hr. rewrite Hr. clear Hr.
  rewrite <- Hl5 in *. clear Hl5 Hne.
  assert (Hbase : forall b,
            fst (specBase lineScore recentAverage (Stats.last5Games playerStats)) = b ->
            b <> skip ->
            (b = over ->
             (difference lineScore recentAverage >? #0) = true
             \/ (gamesOver lineScore (Stats.last5Games playerStats)
                 >? gamesUnder lineScore (Stats.last5Games playerStats)) = true)
            /\ (b = under ->
                (difference lineScore recentAverage <? #0) = true
                \/ (gamesUnder lineScore (Stats.last5Games playerStats)
                    >? gamesOver lineScore (Stats.last5Games playerStats)) = true)).
  { intros b Hb Hnskip.
    pose proof (hit_rate_untied lineScore (Stats.last5Games playerStats) Hlen)
      as Huntied.
    pose proof (@large_percent_difference_sign lineScore recentAverage) as Hsign.
    revert Hb Huntied Hsign.
    unfold specBase, firstMatch, direction, majority, hitRate, gamesOver, gamesUnder.
    rewrite !countIf_filter. cbv zeta.
    fold (difference lineScore recentAverage).
    fold (percentDifference lineScore recentAverage).
    destruct (Math_abs (percentDifference lineScore recentAverage) >? #15) eqn:H15.
    - cbn [fst]. intros <- _ Hsign.
      destruct (difference lineScore recentAverage >? #0) eqn:Hd.
      + split; [auto|discriminate].
      + split; [discriminate|]. intros _. left.
        apply (Hsign #15); auto.
    - destruct (Math_abs (percentDifference lineScore recentAverage) >? #8) eqn:H8.
      + cbn [fst]. intros <- _ Hsign.
        destruct (difference lineScore recentAverage >? #0) eqn:Hd.
        * split; [auto|discriminate].
        * split; [discriminate|]. intros _. left.
          apply (Hsign #8); auto.
      + match goal with
        | |- context [if ?c then _ else _] => destruct c eqn:Hrate
        end.
        * cbn [fst]. intros <- Huntied _.
          match goal with
          | |- context [if ?c then _ else _] => destruct c eqn:Hmaj
          end.
          -- split; [auto|discriminate].
          -- split; [discriminate|]. intros _. right. apply Huntied; reflexivity.
        * cbn [fst]. intros <-. contradiction. }
  match goal with |- context [(?n <? 45)%Z] => destruct (n <? 45)%Z end.
  - split; intros H; discriminate H.
  - destruct (fst (specBase lineScore recentAverage (Stats.last5Games playerStats)))
      eqn:Eb.
    + apply (Hbase over eq_refl). discriminate.
    + apply (Hbase under eq_refl). discriminate.
    + split; intros H; discriminate H.
Qed.

(** *** The three marks of missing data *)

(** X6: the marks of missing data coincide: the guard fails exactly when
    the returned [recentAverage] is null, exactly when [gamesAnalyzed] is 0,
    and exactly when the reasoning is the insufficient-data sentence. *)
Theorem X6_insufficient_data_marks lineScore playerStats :
  let result := analyzeProjection toFixed1 toString lineScore playerStats in
  let guard := Stats.recentAverage playerStats = None
               \/ Stats.last5Games playerStats = [] in
  (guard <-> Analysis.recentAverage result = None)
  /\ (guard <-> Analysis.gamesAnalyzed result = 0%nat)
  /\ (guard <->
      Analysis.reasoning result = "Insufficient data available for analysis"%string).
Proof.
  cbv zeta.
  destruct (Stats.recentAverage playerStats) as [recentAverage|] eqn:Havg.
  - destruct (Stats.last5Games playerStats) as [|g gs] eqn:Hl5.
    + rewrite (analyzeProjection_guard toFixed1 toString lineScore playerStats
                 (or_intror Hl5)).
      repeat split; intros _; solve [reflexivity | right; reflexivity].
    + assert (Hne : Stats.last5Games playerStats <> [])
        by (rewrite Hl5; discriminate).
      destruct (analyzeProjection_fields toFixed1 toString lineScore playerStats
                  Havg Hne) as [Hra Hga].
      destruct (analyzeProjection_reasoning_start toFixed1 toString lineScore
                  playerStats Havg Hne) as [rest Hstart].
      rewrite Hra, Hga, Hl5.
      repeat split; try (intros [H | H]; discriminate H);
        try (intros H; discriminate H).
      intros H. rewrite H in Hstart. destruct Hstart as [H' | H']; discriminate H'.
  - rewrite (analyzeProjection_guard toFixed1 toString lineScore playerStats
               (or_introl Havg)).
    repeat split; intros _; solve [reflexivity | left; reflexivity].
Qed.

End AnalyzerFurther.

(** ** Properties of the rest of the server *)

(** *** The standard deviation *)

Lemma binary_round_aux_not_negative (m e : Z) (l : location) :
  SFltb (binary_round_aux 53 1024 false m e l) (S754_zero false) = false.
Proof.
  unfold binary_round_aux.
  destruct (shr_fexp 53 1024 m e l) as [mrs e'].
  destruct (shr_fexp 53 1024 _ e' loc_Exact) as [mrs' e''].
  destruct (shr_m mrs'); [reflexivity| |reflexivity].
  destruct (e'' <=? 1024 - 53); reflexivity.
Qed.

(** X8: [calculateVariance] never returns a negative number, and returns 0
    on the empty array. *)
Theorem X8_calculateVariance_not_negative (values : list number) :
  JS.ltb (calculateVariance values) (ofZ 0) = false
  /\ (values = [] -> calculateVariance values = ofZ 0).
Proof.
  split; [|intros ->; reflexivity].
  destruct values as [|v vs]; [reflexivity|].
  unfold calculateVariance.
  match goal with |- JS.ltb (JS.sqrt ?x) _ = _ => generalize x end.
  intros x. unfold JS.ltb, JS.sqrt, JS.prec, JS.emax.
  destruct x as [s|s| |s m e]; try destruct s; try reflexivity.
  cbn [SFsqrt].
  destruct (SFsqrt_core_binary 53 1024 (Zpos m) e) as [[mz ez] lz].
  apply binary_round_aux_not_negative.
Qed.

(** *** [getPlayerStats] and [batchGetPlayerStats] *)

Lemma firstn_skipn_step {A : Type} (i k : nat) (l : list A) :
  (firstn i l ++ slice i (i + k) l)%list = firstn (i + k) l.
Proof.
  unfold slice. replace (i + k - i)%nat with k by lia.
  revert l. induction i as [|i IH]; intros l; simpl.
  - reflexivity.
  - destruct l as [|x l]; simpl.
    + rewrite firstn_nil. reflexivity.
    + rewrite IH. reflexivity.
Qed.

Section StatMuseProperties.

Variable queryStats : string -> string -> string -> option Stats.PlayerStatsSummary.

Lemma batchLoop_spec (projections : list Request.StatsRequest) (fuel i : nat) :
  (List.length projections <= i + fuel * BATCH_SIZE)%nat ->
  batchLoop queryStats projections fuel i (map (fun proj => getPlayerStats queryStats (Request.playerName proj)
         (Request.sport proj) (Request.statType proj)) (firstn i projections))
  = map (fun proj => getPlayerStats queryStats (Request.playerName proj)
         (Request.sport proj) (Request.statType proj)) projections.
Proof.
  revert i. induction fuel as [|fuel IH]; intros i Hfuel.
  - simpl. rewrite firstn_all2 by lia. reflexivity.
  - cbn [batchLoop].
    destruct (Nat.ltb_spec i (List.length projections)) as [Hlt | Hge].
    + cbv zeta. rewrite <- map_app, firstn_skipn_step.
      apply IH. lia.
    + rewrite firstn_all2 by lia. reflexivity.
Qed.

(** X9: [batchGetPlayerStats] returns the summaries of its projections one
    for one and in their order: the batches of five do not show in the
    result. *)
Theorem X9_batchGetPlayerStats_in_order (projections : list Request.StatsRequest) :
  batchGetPlayerStats queryStats projections
  = map (fun proj => getPlayerStats queryStats (Request.playerName proj)
                       (Request.sport proj) (Request.statType proj)) projections.
Proof.
  unfold batchGetPlayerStats.
  apply (batchLoop_spec projections (List.length projections) 0).
  unfold BATCH_SIZE. lia.
Qed.

Variable toFixed1 : number -> string.
Variable toString : number -> string.

(** X10: when the lookup of the statistics fails, [getPlayerStats] returns
    the empty summary under the requested names and [analyzeProjection]
    answers it with the insufficient-data skip of confidence 0. *)
Theorem X10_failed_lookup_is_skipped (playerName sport statType : string)
    (lineScore : number) :
  queryStats playerName sport statType = None ->
  let stats := getPlayerStats queryStats playerName sport statType in
  Stats.playerName stats = playerName
  /\ Stats.sport stats = sport
  /\ Stats.statType stats = statType
  /\ analyzeProjection toFixed1 toString lineScore stats
     = {| Analysis.recommendation := skip;
          Analysis.confidenceScore := ofZ 0;
          Analysis.reasoning := "Insufficient data available for analysis";
          Analysis.recentAverage := None;
          Analysis.gamesAnalyzed := 0 |}.
Proof.
  intros Hfail. cbv zeta. unfold getPlayerStats. rewrite Hfail.
  repeat split.
Qed.

End StatMuseProperties.

(** *** [parsePrizePicksData] *)

Import PrizePicks.

Lemma register_fold (included : list Included.t) (playersMap leaguesMap : Map Included.t) :
  fold_left register included (playersMap, leaguesMap)
  = (bindings (rev (filter isPlayer included)) ++ playersMap,
     bindings (rev (filter isLeague included)) ++ leaguesMap)%list.
Proof.
  revert playersMap leaguesMap.
  induction included as [|item included IH]; intros playersMap leaguesMap.
  - reflexivity.
  - cbn [fold_left register filter]. unfold isPlayer, isLeague at 1.
    destruct (String.eqb (Included.type item) "new_player") eqn:Ep.
    + rewrite IH. cbn [negb andb rev]. unfold bindings, Map_set.
      rewrite map_app, <- app_assoc. reflexivity.
    + destruct (String.eqb (Included.type item) "league") eqn:El.
      * rewrite IH. cbn [negb andb rev]. unfold bindings, Map_set.
        rewrite map_app, <- app_assoc. reflexivity.
      * rewrite IH. reflexivity.
Qed.

Lemma Map_get_bindings (key : string) (items : list Included.t) :
  Map_get key (bindings items)
  = find (fun item => String.eqb (Included.id item) key) items.
Proof.
  induction items as [|item items IH]; simpl; [reflexivity|].
  destruct (String.eqb (Included.id item) key); [reflexivity|exact IH].
Qed.

Lemma find_filter {A : Type} (p q : A -> bool) (l : list A) :
  find q (filter p l) = find (fun x => p x && q x) l.
Proof.
  induction l as [|x l IH]; simpl; [reflexivity|].
  destruct (p x); simpl; [|exact IH].
  destruct (q x); [reflexivity|exact IH].
Qed.

Lemma playersMap_get (included : list Included.t) (key : string) :
  Map_get key (fst (fold_left register included ([], [])))
  = find (fun item => isPlayer item && String.eqb (Included.id item) key)
      (rev included).
Proof.
  rewrite register_fold. cbn [fst]. rewrite app_nil_r, Map_get_bindings.
  rewrite <- filter_rev. apply find_filter.
Qed.

Lemma leaguesMap_get (included : list Included.t) (key : string) :
  Map_get key (snd (fold_left register included ([], [])))
  = find (fun item => isLeague item && String.eqb (Included.id item) key)
      (rev included).
Proof.
  rewrite register_fold. cbn [snd]. rewrite app_nil_r, Map_get_bindings.
  rewrite <- filter_rev. apply find_filter.
Qed.

Lemma or_literal_not_empty (a : option string) (b : string) :
  b <> ""%string -> or_literal a b <> ""%string.
Proof.
  intros Hb. unfold or_literal. destruct a as [s|]; [|exact Hb].
  destruct (String.eqb_spec s ""); assumption.
Qed.

Section ParseProperties.

Variable toString : number -> string.

Lemma parsePrizePicksData_map (response : Response.t) :
  let included := match Response.included response with
                  | Some included => included
                  | None => []
                  end in
  parsePrizePicksData toString response
  = map (parseProjection toString
           (fst (fold_left register included ([], [])))
           (snd (fold_left register included ([], []))))
      (Response.data response).
Proof.
  cbv zeta. unfold parsePrizePicksData.
  destruct (fold_left register _ ([], [])) as [playersMap leaguesMap].
  reflexivity.
Qed.

(** X11: [parsePrizePicksData] returns one record per projection, in the
    order of [data], with the id and the stat type of the projection and
    its line converted to a string. *)
Theorem X11_parse_keeps_projections (response : Response.t) :
  let parsed := parsePrizePicksData toString response in
  let data := Response.data response in
  map Parsed.id parsed = map Projection.id data
  /\ map Parsed.statType parsed
     = map (fun p => ProjectionAttributes.stat_type (Projection.attributes p)) data
  /\ map Parsed.lineScore parsed
     = map (fun p => toString (ProjectionAttributes.line_score
                                 (Projection.attributes p))) data.
Proof.
  cbv zeta. rewrite parsePrizePicksData_map. cbv zeta.
  rewrite !map_map. repeat split.
Qed.

(** X12: in every parsed record the player name and the status are not
    empty and the game time is null rather than the empty string. *)
Theorem X12_parse_defaults_never_empty (response : Response.t) :
  Forall (fun out => Parsed.playerName out <> ""%string
                     /\ Parsed.status out <> ""%string
                     /\ Parsed.gameTime out <> Some ""%string)
    (parsePrizePicksData toString response).
Proof.
  rewrite parsePrizePicksData_map. cbv zeta.
  apply Forall_forall. intros out Hin. apply in_map_iff in Hin.
  destruct Hin as [projection [<- _]]. cbn [parseProjection Parsed.playerName
    Parsed.status Parsed.gameTime].
  split; [apply or_literal_not_empty; discriminate|].
  split; [apply or_literal_not_empty; discriminate|].
  destruct (ProjectionAttributes.board_time (Projection.attributes projection))
    as [s|]; cbn [truthy]; [|discriminate].
  destruct (String.eqb_spec s ""); cbn [negb]; [discriminate|congruence].
Qed.

(** X13: a projection whose player id is missing or the empty string is
    parsed with the player name Unknown and an empty team, whatever
    [included] holds. *)
Theorem X13_parse_unresolved_player (response : Response.t) (i : nat)
    (projection : Projection.t) :
  nth_error (Response.data response) i = Some projection ->
  truthy (relatedId Relationships.new_player projection) = false ->
  exists out,
    nth_error (parsePrizePicksData toString response) i = Some out
    /\ Parsed.playerName out = "Unknown"%string
    /\ Parsed.team out = ""%string.
Proof.
  intros Hnth Hid. rewrite parsePrizePicksData_map. cbv zeta.
  rewrite nth_error_map, Hnth. cbn [option_map]. eexists. split; [reflexivity|].
  cbn [parseProjection Parsed.playerName Parsed.team].
  destruct (relatedId Relationships.new_player projection) as [pid|];
    [rewrite Hid|]; split; reflexivity.
Qed.

(** X14: the player of a projection is the last included object of type
    new_player with the projection's player id; its name (Unknown when
    empty or when there is no such object) and its team are what the
    parsed record carries. *)
Theorem X14_parse_player_lookup (response : Response.t) (i : nat)
    (projection : Projection.t) (pid : string) :
  nth_error (Response.data response) i = Some projection ->
  relatedId Relationships.new_player projection = Some pid ->
  pid <> ""%string ->
  let included := match Response.included response with
                  | Some included => included
                  | None => []
                  end in
  let player :=
    find (fun item => String.eqb (Included.type item) "new_player"
                      && String.eqb (Included.id item) pid) (rev included) in
  exists out,
    nth_error (parsePrizePicksData toString response) i = Some out
    /\ Parsed.playerName out
       = match player with
         | Some item =>
             if String.eqb (IncludedAttributes.name (Included.attributes item)) ""
             then "Unknown"%string
             else IncludedAttributes.name (Included.attributes item)
         | None => "Unknown"%string
         end
    /\ Parsed.team out
       = match player with
         | Some item =>
             or_literal
               (or_else (IncludedAttributes.team_name (Included.attributes item))
                        (IncludedAttributes.team (Included.attributes item))) ""
         | None => ""%string
         end.
Proof.
  intros Hnth Hid Hpid. cbv zeta. rewrite parsePrizePicksData_map. cbv zeta.
  rewrite nth_error_map, Hnth. cbn [option_map]. eexists. split; [reflexivity|].
  cbn [parseProjection Parsed.playerName Parsed.team]. rewrite Hid.
  cbn [truthy]. destruct (String.eqb_spec pid ""); [contradiction|]. cbn [negb].
  rewrite playersMap_get. unfold isPlayer.
  destruct (find _ _) as [item|]; split; reflexivity.
Qed.

(** X15: the league of a projection is the last included object of type
    league with the projection's league id; the parsed league is its name
    and the parsed sport its sport, or its name when it has no sport. *)
Theorem X15_parse_league_lookup (response : Response.t) (i : nat)
    (projection : Projection.t) (lid : string) :
  nth_error (Response.data response) i = Some projection ->
  relatedId Relationships.league projection = Some lid ->
  lid <> ""%string ->
  let included := match Response.included response with
                  | Some included => included
                  | None => []
                  end in
  let league :=
    find (fun item => negb (String.eqb (Included.type item) "new_player")
                      && String.eqb (Included.type item) "league"
                      && String.eqb (Included.id item) lid) (rev included) in
  exists out,
    nth_error (parsePrizePicksData toString response) i = Some out
    /\ Parsed.league out
       = match league with
         | Some item => IncludedAttributes.name (Included.attributes item)
         | None => ""%string
         end
    /\ Parsed.sport out
       = match league with
         | Some item =>
             if truthy (IncludedAttributes.sport (Included.attributes item))
             then match IncludedAttributes.sport (Included.attributes item) with
                  | Some s => s
                  | None => ""%string
                  end
             else IncludedAttributes.name (Included.attributes item)
         | None => ""%string
         end.
Proof.
  intros Hnth Hid Hlid. cbv zeta. rewrite parsePrizePicksData_map. cbv zeta.
  rewrite nth_error_map, Hnth. cbn [option_map]. eexists. split; [reflexivity|].
  cbn [parseProjection Parsed.league Parsed.sport]. rewrite Hid.
  cbn [truthy]. destruct (String.eqb_spec lid ""); [contradiction|]. cbn [negb].
  rewrite leaguesMap_get. unfold isLeague.
  destruct (find _ _) as [item|]; [|split; reflexivity].
  cbn [option_map or_literal or_else].
  split.
  - destruct (String.eqb_spec (IncludedAttributes.name (Included.attributes item)) "");
      congruence.
  - unfold or_else, or_literal.
    destruct (IncludedAttributes.sport (Included.attributes item)) as [s|];
      cbn [truthy].
    + destruct (String.eqb_spec s ""); cbn [negb].
      * destruct (String.eqb_spec
                    (IncludedAttributes.name (Included.attributes item)) "");
          congruence.
      * destruct (String.eqb_spec s ""); congruence.
    + destruct (String.eqb_spec
                  (IncludedAttributes.name (Included.attributes item)) "");
        congruence.
Qed.

(** X16: an included object whose type is neither new_player nor league
    has no effect on the result. *)
Theorem X16_parse_ignores_other_types (data : list Projection.t)
    (before after : list Included.t) (item : Included.t) :
  String.eqb (Included.type item) "new_player" = false ->
  String.eqb (Included.type item) "league" = false ->
  parsePrizePicksData toString
    {| Response.data := data; Response.included := Some (before ++ item :: after) |}
  = parsePrizePicksData toString
      {| Response.data := data; Response.included := Some (before ++ after) |}.
Proof.
  intros Hp Hl. unfold parsePrizePicksData. cbn [Response.data Response.included].
  rewrite !fold_left_app. cbn [fold_left].
  destruct (fold_left register before ([], [])) as [playersMap leaguesMap].
  cbn [register]. rewrite Hp, Hl. reflexivity.
Qed.

End ParseProperties.

(** ** The further properties at concrete inputs *)

Lemma X1_clamp_never_active_witness :
  Analysis.confidenceScore (analyzeProjection render_22_0 render_20 (ofZ 20) example4)
  = ofZ 30
  /\ Analysis.confidenceScore
       (analyzeProjection render_22_0 render_20 (ofZ 20) example4)
     = unclampedConfidence render_22_0 render_20 (ofZ 20) (ofZ 22)
         (Stats.last5Games example4) low decreasing
  /\ exists n : Z,
       unclampedConfidence render_22_0 render_20 (ofZ 20) (ofZ 22)
         (Stats.last5Games example4) low decreasing = ofZ n
       /\ 15 <= n <= 90 /\ n mod 5 = 0.
Proof.
  split; [vm_compute; reflexivity|].
  apply (X1_clamp_never_active render_22_0 render_20 (ofZ 20) example4
           (recentAverage := ofZ 22)).
  - reflexivity.
  - discriminate.
Defined.

Lemma X4_consistency_steps_witness :
  exists n : Z,
    Analysis.confidenceScore
      (analyzeProjection render_25_0 render_20 (ofZ 20)
         (withConsistency medium example1)) = ofZ n
    /\ Analysis.confidenceScore
         (analyzeProjection render_25_0 render_20 (ofZ 20)
            (withConsistency high example1)) = ofZ (n + 10)
    /\ Analysis.confidenceScore
         (analyzeProjection render_25_0 render_20 (ofZ 20)
            (withConsistency low example1)) = ofZ (n - 15).
Proof.
  apply (X4_consistency_steps render_25_0 render_20 (ofZ 20) example1
           (recentAverage := ofZ 25)).
  - reflexivity.
  - discriminate.
Defined.

Lemma X5_direction_follows_evidence_witness :
  Analysis.recommendation (analyzeProjection render_25_0 render_20 (ofZ 20) example1)
  = over
  /\ (Analysis.recommendation
        (analyzeProjection render_25_0 render_20 (ofZ 20) example1) = over ->
      JS.gtb (difference (ofZ 20) (ofZ 25)) (ofZ 0) = true
      \/ JS.gtb (gamesOver (ofZ 20) (Stats.last5Games example1))
           (gamesUnder (ofZ 20) (Stats.last5Games example1)) = true)
  /\ (Analysis.recommendation
        (analyzeProjection render_25_0 render_20 (ofZ 20) example1) = under ->
      JS.ltb (difference (ofZ 20) (ofZ 25)) (ofZ 0) = true
      \/ JS.gtb (gamesUnder (ofZ 20) (Stats.last5Games example1))
           (gamesOver (ofZ 20) (Stats.last5Games example1)) = true).
Proof.
  split; [vm_compute; reflexivity|].
  apply (X5_direction_follows_evidence render_25_0 render_20 (ofZ 20) example1
           (recentAverage := ofZ 25)).
  - reflexivity.
  - vm_compute; reflexivity.
Defined.

Lemma X7_reasoning_is_trimmed_of_one_space_witness :
  Analysis.reasoning (analyzeProjection render_22_0 render_20 (ofZ 20) example4)
  = (computedReasoning render_22_0 render_20 (ofZ 20) (ofZ 22)
       (Stats.last5Games example4) low decreasing
     ++ "Low confidence - recommend skipping this pick.")%string
  /\ endsWith
       (Analysis.reasoning (analyzeProjection render_22_0 render_20 (ofZ 20) example4))
       ".".
Proof.
  destruct (X7_reasoning_is_trimmed_of_one_space render_22_0 render_20 (ofZ 20)
              example4 (recentAverage := ofZ 22))
    as [Hforced [_ Hstop]].
  - reflexivity.
  - discriminate.
  - split; [apply Hforced; vm_compute; reflexivity|exact Hstop].
Defined.

Lemma X10_failed_lookup_is_skipped_witness :
  Stats.playerName (getPlayerStats queryFails "LeBron James" "NBA" "Points")
  = "LeBron James"%string
  /\ Stats.sport (getPlayerStats queryFails "LeBron James" "NBA" "Points")
     = "NBA"%string
  /\ Stats.statType (getPlayerStats queryFails "LeBron James" "NBA" "Points")
     = "Points"%string
  /\ analyzeProjection render_25_0 render_20 (ofZ 20)
       (getPlayerStats queryFails "LeBron James" "NBA" "Points")
     = {| Analysis.recommendation := skip;
          Analysis.confidenceScore := ofZ 0;
          Analysis.reasoning := "Insufficient data available for analysis";
          Analysis.recentAverage := None;
          Analysis.gamesAnalyzed := 0 |}.
Proof.
  apply (X10_failed_lookup_is_skipped queryFails render_25_0 render_20
           "LeBron James" "NBA" "Points" (ofZ 20)).
  reflexivity.
Defined.

Lemma X13_parse_unresolved_player_witness :
  exists out,
    nth_error (PrizePicks.parsePrizePicksData render_20 exampleResponse) 1 = Some out
    /\ PrizePicks.Parsed.playerName out = "Unknown"%string
    /\ PrizePicks.Parsed.team out = ""%string.
Proof.
  apply (X13_parse_unresolved_player render_20 exampleResponse 1
           (projection := exampleProjection2)).
  - reflexivity.
  - reflexivity.
Defined.

Lemma X14_parse_player_lookup_witness :
  exists out,
    nth_error (PrizePicks.parsePrizePicksData render_20 exampleResponse) 0 = Some out
    /\ PrizePicks.Parsed.playerName out = "Jayson Tatum"%string
    /\ PrizePicks.Parsed.team out = "Celtics"%string.
Proof.
  destruct (X14_parse_player_lookup render_20 exampleResponse 0
              (projection := exampleProjection1)
              (pid := "42"%string)) as [out [Hout [Hname Hteam]]].
  - reflexivity.
  - reflexivity.
  - discriminate.
  - exists out. split; [exact Hout|]. split; [exact Hname|exact Hteam].
Defined.

Lemma X15_parse_league_lookup_witness :
  exists out,
    nth_error (PrizePicks.parsePrizePicksData render_20 exampleResponse) 0 = Some out
    /\ PrizePicks.Parsed.league out = "NBA"%string
    /\ PrizePicks.Parsed.sport out = "Basketball"%string.
Proof.
  destruct (X15_parse_league_lookup render_20 exampleResponse 0
              (projection := exampleProjection1)
              (lid := "42"%string)) as [out [Hout [Hleague Hsport]]].
  - reflexivity.
  - reflexivity.
  - discriminate.
  - exists out. split; [exact Hout|]. split; [exact Hleague|exact Hsport].
Defined.

Lemma X16_parse_ignores_other_types_witness :
  PrizePicks.parsePrizePicksData render_20 exampleResponse
  = PrizePicks.parsePrizePicksData render_20
      {| PrizePicks.Response.data := exampleData;
         PrizePicks.Response.included := Some (firstn 3 exampleIncluded) |}.
Proof.
  apply (X16_parse_ignores_other_types render_20 exampleData
           (firstn 3 exampleIncluded) []
           (includedObject "7" "stat_type" "Points" None None));
    reflexivity.
Defined.
